(** * trainer-scout: feedback aggregation, ranking and quote selection

    A shallow embedding of [scripts/analyze_trainer_feedback.py] and
    [scripts/generate_outreach.py], with the properties of the ranking
    engine proved over it.

    Modelling conventions.
    - A pandas cell that holds NaN / NaT / a blank is [None].
    - Survey scores and their means are exact rationals ([Q]); the rounding
      error of IEEE doubles and the non-finite doubles are outside the model.
    - Text is a Rocq [string] read as a sequence of ASCII code points; case
      mapping and white space are Python's on that range.
    - The table handed to [main] is the data frame after the score columns
      were cleaned and the creation date was parsed (lines 405-428);
      reading the CSV file is not modelled.  The reports are modelled as
      the values that are written. *)

From Stdlib Require Import ZArith QArith Qround Lqa Ascii String DecimalString DecimalNat.
From stdpp Require Import base option list strings gmap sorting.

Local Open Scope stdpp_scope.

(** ** Python string primitives *)

Module Py.

(** [str.isspace] on one ASCII character: TAB, LF, VT, FF, CR, the four
    information separators FS, GS, RS, US, and the space. *)
Definition isspace (c : ascii) : bool :=
  let n := nat_of_ascii c in
  (Nat.leb 9 n && Nat.leb n 13) || (Nat.leb 28 n && Nat.leb n 32).

(** The case maps of Python on the ASCII range.  A letter outside ASCII is
    left as it is here, where Python maps it as well: what is proved from
    these maps about [lower] and [capitalize] is stated for text that
    [isascii] accepts. *)
Definition lower_char (c : ascii) : ascii :=
  let n := nat_of_ascii c in
  if Nat.leb 65 n && Nat.leb n 90 then ascii_of_nat (n + 32) else c.

Definition upper_char (c : ascii) : ascii :=
  let n := nat_of_ascii c in
  if Nat.leb 97 n && Nat.leb n 122 then ascii_of_nat (n - 32) else c.

(** [s.lower()] *)
Fixpoint lower (s : string) : string :=
  match s with
  | EmptyString => EmptyString
  | String c s' => String (lower_char c) (lower s')
  end.

(** [s.capitalize()]: first character upper-cased, the rest lower-cased. *)
Definition capitalize (s : string) : string :=
  match s with
  | EmptyString => EmptyString
  | String c s' => String (upper_char c) (lower s')
  end.

(** [s.lstrip()], [s.rstrip()], [s.strip()] *)
Fixpoint lstrip (s : string) : string :=
  match s with
  | EmptyString => EmptyString
  | String c s' => if isspace c then lstrip s' else s
  end.

Fixpoint rstrip (s : string) : string :=
  match s with
  | EmptyString => EmptyString
  | String c s' =>
      match rstrip s' with
      | EmptyString => if isspace c then EmptyString else String c EmptyString
      | r => String c r
      end
  end.

Definition strip (s : string) : string := rstrip (lstrip s).

(** [len(s)] *)
Definition len (s : string) : nat := String.length s.

(** [s[:n]] *)
Fixpoint slice_to (n : nat) (s : string) : string :=
  match n, s with
  | S n', String c s' => String c (slice_to n' s')
  | _, _ => EmptyString
  end.

(** [kw in s]: [kw] occurs in [s] as a contiguous substring. *)
Fixpoint contains (s kw : string) : bool :=
  String.prefix kw s ||
  match s with
  | EmptyString => false
  | String _ s' => contains s' kw
  end.

(** [s.split(sep)[0]] for a one-character separator: the text before the
    first occurrence of [sep], or all of [s] when there is none. *)
Fixpoint split_head (sep : ascii) (s : string) : string :=
  match s with
  | EmptyString => EmptyString
  | String c s' => if Ascii.eqb c sep then EmptyString else String c (split_head sep s')
  end.

(** [any(p(x) for x in l)] *)
Definition any {A} (p : A → bool) (l : list A) : bool := existsb p l.

(** [l.sort(key=key, reverse=True)]: Python's list sort is stable, and with
    [reverse=True] elements of equal key still keep their original order.
    The stable sort of a list is unique, so the insertion sort below is
    the function Python computes: [x], which stood before all of [l], goes
    after the elements of larger key and before those of equal or smaller
    key.  Keys are compared by [ltb]. *)
Section SortReverse.
Context {A K : Type} (ltb : K → K → bool) (key : A → K).

Fixpoint insert_desc (x : A) (l : list A) : list A :=
  match l with
  | [] => [x]
  | y :: l' => if ltb (key x) (key y) then y :: insert_desc x l' else x :: l
  end.

Fixpoint sort_reverse (l : list A) : list A :=
  match l with
  | [] => []
  | x :: l' => insert_desc x (sort_reverse l')
  end.
End SortReverse.

(** [s.split()]: the maximal runs of characters that are not white space;
    [cur] is the run read so far. *)
Definition flush (cur : string) : list string :=
  match cur with
  | EmptyString => []
  | _ => [cur]
  end.

Fixpoint split_from (cur s : string) : list string :=
  match s with
  | EmptyString => flush cur
  | String c s' =>
      if isspace c then flush cur ++ split_from EmptyString s'
      else split_from (cur +:+ String c EmptyString) s'
  end.

Definition split (s : string) : list string := split_from EmptyString s.

(** [sep.join(l)] *)
Definition join (sep : string) (l : list string) : string := String.concat sep l.

(** [f"{i:04d}"]: decimal, zero-padded on the left to at least 4 digits. *)
Definition format_04d (i : nat) : string :=
  let d := NilEmpty.string_of_uint (Nat.to_uint i) in
  String.concat "" (replicate (4 - String.length d) "0") +:+ d.

(** [s.isascii()] *)
Definition isascii (s : string) : bool :=
  forallb (fun c => Nat.ltb (nat_of_ascii c) 128) (list_ascii_of_string s).

(** [s.startswith(p)] *)
Definition startswith (s p : string) : bool := String.prefix p s.

(** [s.split(sep, 1)] for a one-character separator: [None] when [sep] does
    not occur in [s] (the list has one element), else the text before and
    the text after its first occurrence (the list has two). *)
Fixpoint split_1 (sep : ascii) (s : string) : option (string * string) :=
  match s with
  | EmptyString => None
  | String c s' =>
      if Ascii.eqb c sep then Some (EmptyString, s')
      else match split_1 sep s' with
           | Some (before, after) => Some (String c before, after)
           | None => None
           end
  end.

(** [s.replace(c, '')] for a one-character [c] *)
Fixpoint remove_char (c : ascii) (s : string) : string :=
  match s with
  | EmptyString => EmptyString
  | String d s' => if Ascii.eqb d c then remove_char c s' else String d (remove_char c s')
  end.

(** [str(n)] and [f"{n}"] for an int [n >= 0] *)
Definition str (n : nat) : string := NilEmpty.string_of_uint (Nat.to_uint n).

End Py.

(** ** The data frame *)

(** One row of the feedback table.  [cells] holds the free-text columns by
    column name; a column missing from the map is a NaN cell. *)
Record Row := mkRow {
  row_id : string;
  Trainer : option string;
  creation_datetime : option Z;
  scores : list (option Q);
  cells : gmap string string;
}.

Record DataFrame := mkDataFrame {
  columns : list string;
  rows : list Row;
}.

(** ** Quote extraction (analyze_trainer_feedback.py, lines 22-61) *)

Record Quote := mkQuote {
  q_row_id : string;
  q_quote : string;
  q_source_column : string;
}.

Definition positive_keywords : list string :=
  [ "excellent"; "great"; "love"; "helpful"; "enjoyed";
    "beneficial"; "best"; "appreciated"; "wonderful";
    "positive"; "fun"; "engaging"; "motivated"; "patient";
    "clear"; "friendly"; "approachable"; "flexible" ].

(** Lines 33-34: the cell is skipped when it is NaN, empty, "nan" or "-". *)
Definition is_blank (text : option string) : bool :=
  match text with
  | None => true
  | Some t => bool_decide (t = "") || bool_decide (t = "nan") || bool_decide (t = "-")
  end.

Definition has_positive (text_lower : string) : bool :=
  Py.any (fun keyword => Py.contains text_lower keyword) positive_keywords.

(** Lines 51-53. *)
Definition limit_quote (text_str : string) : string :=
  if Nat.ltb 200 (Py.len text_str) then Py.slice_to 200 text_str +:+ "..." else text_str.

(** The body of the inner loop (lines 29-59) for one row and one column:
    [None] when the loop [continue]s or the text has no positive keyword. *)
Definition quote_of_cell (rid col : string) (text : option string) : option Quote :=
  if is_blank text then None
  else
    let text_str := Py.strip (default "" text) in
    if Nat.ltb (Py.len text_str) 20 then None
    else
      let text_lower := Py.lower text_str in
      if has_positive text_lower
      then Some (mkQuote rid (limit_quote text_str) col)
      else None.

Definition extract_positive_quotes (df : DataFrame) (text_cols : list string) : list Quote :=
  flat_map
    (fun col =>
       if bool_decide (col ∈ columns df)
       then omap (fun row => quote_of_cell (row_id row) col (cells row !! col)) (rows df)
       else [])
    text_cols.

(** ** Scores and means *)

(** [Series.dropna()] *)
Definition dropna {A} (s : list (option A)) : list A := omap id s.

Definition Qsum (l : list Q) : Q := foldr Qplus 0%Q l.

(** [Series.mean()] of a series without NaN.  pandas answers NaN for the
    empty series; both callers test for emptiness first. *)
Definition mean (l : list Q) : Q := (Qsum l / inject_Z (Z.of_nat (length l)))%Q.

(** [df[actual_score_cols].mean(axis=1, skipna=True)] for one row
    (line 431): the mean of the cells that are not NaN, NaN if there is none. *)
Definition mean_skipna (cs : list (option Q)) : option Q :=
  let present := dropna cs in
  if Nat.eqb (length present) 0 then None else Some (mean present).

Definition composite_score (r : Row) : option Q := mean_skipna (scores r).

Definition Qltb (x y : Q) : bool := negb (Qle_bool y x).

(** [round(x, ndigits)]: to the nearest multiple of [10^-ndigits], a tie
    going to the even one. *)
Definition round_half_even (x : Q) : Z :=
  let f := Qfloor x in
  match (x - inject_Z f ?= 1 # 2)%Q with
  | Lt => f
  | Gt => (f + 1)%Z
  | Eq => if Z.even f then f else (f + 1)%Z
  end.

Definition round (x : Q) (ndigits : nat) : Q :=
  let p := (10 ^ Z.of_nat ndigits)%Z in
  (inject_Z (round_half_even (x * inject_Z p)) / inject_Z p)%Q.

(** ** Narrative bucket (lines 509-516) *)

Definition exceptional_growth : string :=
  "Demonstrated exceptional growth in participant satisfaction scores".
Definition strong_improvement : string :=
  "Showed strong improvement in training effectiveness and learner engagement".
Definition steady_upward_trajectory : string :=
  "Steady upward trajectory in teaching quality and participant feedback".
Definition maintained_high_standards : string :=
  "Maintained consistently high training standards with positive learner outcomes".

Definition case_study (improvement : Q) : string :=
  if Qltb 1 improvement then exceptional_growth
  else if Qltb (1 # 2) improvement then strong_improvement
  else if Qltb 0 improvement then steady_upward_trajectory
  else maintained_high_standards.

(** ** Per-trainer statistics and ranking (lines 400-533) *)

Record TrainerStat := mkTrainerStat {
  trainer : string;
  n_responses : nat;
  mean_early : Q;
  mean_late : Q;
  improvement : Q;
  group_df : list Row;
}.

(** One entry of [results], as written to [outputs/results.json].  The
    quotes keep the [Quote] record: the JSON key of [q_source_column] is
    [source]. *)
Record Result := mkResult {
  rank : nat;
  trainer_name : string;
  r_n_responses : nat;
  improvement_score : Q;
  mean_early_score : Q;
  mean_late_score : Q;
  quotes : list Quote;
  case_study_angle : string;
}.

(** Line 409: [df['row_id'] = [f"R{i:04d}" for i in range(1, len(df) + 1)]]. *)
Definition with_row_id (rid : string) (r : Row) : Row :=
  mkRow rid (Trainer r) (creation_datetime r) (scores r) (cells r).

Definition assign_row_ids (rs : list Row) : list Row :=
  imap (fun i r => with_row_id ("R" +:+ Py.format_04d (S i)) r) rs.

(** Lines 415-422: the columns of the file that hold the scores.  For each
    code the first column whose name starts with it is taken, if any. *)
Definition score_cols : list string :=
  [ "1.3"; "1.4"; "2.8"; "2.9"; "v1_1.2"; "v2_1.1"; "v2_1.2" ].

Definition actual_score_cols (cols : list string) : list string :=
  flat_map
    (fun score_col =>
       let matching_cols := filter (fun col => Py.startswith col score_col) cols in
       match matching_cols with
       | [] => []
       | col :: _ => [col]
       end)
    score_cols.

(** Line 434: rows with a trainer and a parsed creation date. *)
Definition valid (r : Row) : bool :=
  bool_decide (is_Some (Trainer r)) && bool_decide (is_Some (creation_datetime r)).

(** Line 441, [df.groupby('Trainer')]: one group per distinct trainer, the
    groups in ascending order of the key, the rows of a group in the order
    of the frame. *)
Definition group_keys (rs : list Row) : list string :=
  merge_sort String.le (remove_dups (omap Trainer rs)).

Definition groupby_Trainer (rs : list Row) : list (string * list Row) :=
  (fun t => (t, filter (fun r => Trainer r = Some t) rs)) <$> group_keys rs.

(** Line 483. *)
Definition text_cols_of (cols : list string) : list string :=
  filter (fun col => Py.contains col "3.12" || Py.contains col "3.13") cols.

(** Lines 452-454: [group.iloc[:mid_point]] and [group.iloc[mid_point:]]. *)
Definition mid_point (group : list Row) : nat := Nat.div (length group) 2.
Definition early_half (group : list Row) : list Row := take (mid_point group) group.
Definition late_half (group : list Row) : list Row := drop (mid_point group) group.

(** Lines 457-458: [half['composite_score'].dropna()]. *)
Definition half_scores (half : list Row) : list Q := dropna (composite_score <$> half).

(** Lines 502-506: the quotes of a trainer, longest first, the first two. *)
Definition select_quotes (df : DataFrame) (group : list Row) : list Quote :=
  let all_quotes :=
    extract_positive_quotes (mkDataFrame (columns df) group) (text_cols_of (columns df)) in
  take 2 (Py.sort_reverse Nat.ltb (fun q => Py.len (q_quote q)) all_quotes).

(** The body of the loop over [enumerate(top_2, 1)] (lines 490-533). *)
Definition build_result (df : DataFrame) (idx : nat) (st : TrainerStat) : Result :=
  mkResult idx (trainer st) (n_responses st)
    (round (improvement st) 3) (round (mean_early st) 2) (round (mean_late st) 2)
    (select_quotes df (group_df st))
    (case_study (improvement st)).

(** Lines 594-609: the words of a quote are laid out on lines for the
    console.  The state of the loop is [lines], [current_line] and
    [current_length]. *)
Definition wrap_step (st : list string * list string * nat) (word : string)
    : list string * list string * nat :=
  let '(lines, current_line, current_length) := st in
  if Nat.leb (current_length + Py.len word + 1) 70
  then (lines, current_line ++ [word], current_length + Py.len word + 1)
  else (lines ++ [Py.join " " current_line], [word], Py.len word).

Definition wrap_words (words : list string) : list string :=
  let '(lines, current_line, _) := foldl wrap_step ([], [], 0) words in
  match current_line with
  | [] => lines
  | _ => lines ++ [Py.join " " current_line]
  end.

Definition wrap_quote (quote : string) : list string := wrap_words (Py.split quote).

Section Analysis.

(** [numpy.argsort(keys, kind='quicksort')], the sort pandas runs when
    [sort_values] is called without [kind]: the positions of [keys] in
    sorted order. *)
Variable argsort : list Z → list nat.

(** pandas' [nargsort] with [na_position='last']: the cells that are not NaT
    are sorted by [argsort], the NaT ones follow in their own order. *)
Definition nargsort (items : list (option Z)) : list nat :=
  let idx := seq 0 (length items) in
  let non_nan_idx := filter (fun i => is_Some (mjoin (items !! i))) idx in
  let nan_idx := filter (fun i => mjoin (items !! i) = None) idx in
  let non_nans := dropna items in
  omap (fun k => non_nan_idx !! k) (argsort non_nans) ++ nan_idx.

(** Line 449: [group.sort_values('creation_datetime')]. *)
Definition sort_values (group : list Row) : list Row :=
  omap (fun i => group !! i) (nargsort (creation_datetime <$> group)).

(** The body of the loop over the groups (lines 442-472); [None] when the
    loop appends nothing for this trainer. *)
Definition trainer_stat (t : string) (group : list Row) : option TrainerStat :=
  let n := length group in
  if Nat.ltb n 3 then None
  else
    let group := sort_values group in
    let early_scores := half_scores (early_half group) in
    let late_scores := half_scores (late_half group) in
    if Nat.ltb 0 (length early_scores) && Nat.ltb 0 (length late_scores) then
      let m_early := mean early_scores in
      let m_late := mean late_scores in
      Some (mkTrainerStat t n m_early m_late (m_late - m_early)%Q group)
    else None.

(** Line 434 and the frame the groups are taken from. *)
Definition valid_rows (df : DataFrame) : list Row :=
  filter (fun r => valid r = true) (assign_row_ids (rows df)).

(** Lines 439-472: the statistics of every surviving trainer, in the order
    of the groups. *)
Definition trainer_stats (df : DataFrame) : list TrainerStat :=
  omap (fun tg => trainer_stat tg.1 tg.2) (groupby_Trainer (valid_rows df)).

(** Line 475: [trainer_stats.sort(key=lambda x: x['improvement'], reverse=True)]. *)
Definition ranked_stats (df : DataFrame) : list TrainerStat :=
  Py.sort_reverse Qltb improvement (trainer_stats df).

(** Line 480. *)
Definition top_2 (df : DataFrame) : list TrainerStat := take 2 (ranked_stats df).

Definition main (df : DataFrame) : list Result :=
  imap (fun i st => build_result df (S i) st) (top_2 df).

End Analysis.

(** ** The CSV export (lines 543-562) *)

(** One row of [outputs/results.csv]; the fields are the keys of the dict,
    in its order. *)
Record CsvRow := mkCsvRow {
  Rank : nat;
  Trainer_Name : string;
  Total_Responses : nat;
  Early_Period_Score : Q;
  Late_Period_Score : Q;
  Improvement_Score : Q;
  Quote_1_Row_ID : string;
  Quote_1 : string;
  Quote_2_Row_ID : string;
  Quote_2 : string;
  Case_Study_Angle : string;
}.

(** [d.get(key, '')], where [d] is a quote or the empty dict ([None]). *)
Definition get_or_empty (field : Quote → string) (d : option Quote) : string :=
  match d with
  | Some quote => field quote
  | None => EmptyString
  end.

(** The body of the loop of lines 545-562.  [quotes !! 0] is
    [result['quotes'][0] if len(result['quotes']) > 0 else {}]. *)
Definition flatten_result (result : Result) : CsvRow :=
  let quote_1 := quotes result !! 0%nat in
  let quote_2 := quotes result !! 1%nat in
  mkCsvRow (rank result) (trainer_name result) (r_n_responses result)
    (mean_early_score result) (mean_late_score result) (improvement_score result)
    (get_or_empty q_row_id quote_1) (get_or_empty q_quote quote_1)
    (get_or_empty q_row_id quote_2) (get_or_empty q_quote quote_2)
    (case_study_angle result).

Definition csv_rows (results : list Result) : list CsvRow := flatten_result <$> results.

(** ** The HTML report (generate_html_report, lines 64-397)

    The text of the page is the text of the source; a character outside
    ASCII stands as the bytes of its UTF-8 encoding, as in the file that is
    written. *)

Definition dq : string := String (ascii_of_nat 34) EmptyString.

(** Lines 66-329. *)
Definition html_head : string :=
  "<!DOCTYPE html>
<html lang=" +:+ dq +:+ "en" +:+ dq +:+ ">
<head>
    <meta charset=" +:+ dq +:+ "UTF-8" +:+ dq +:+ ">
    <meta name=" +:+ dq +:+ "viewport" +:+ dq +:+ " content=" +:+ dq +:+ "width=device-width, initial-scale=1.0" +:+ dq +:+ ">
    <title>Trainer Improvement Analysis</title>
    <style>
        * {
            margin: 0;
            padding: 0;
            box-sizing: border-box;
        }
        body {
            font-family: -apple-system, BlinkMacSystemFont, 'Segoe UI', Roboto, 'Helvetica Neue', Arial, sans-serif;
            line-height: 1.6;
            background: linear-gradient(135deg, #f5f7fa 0%, #e8ecf1 100%);
            color: #1a1a1a;
            padding: 0;
            min-height: 100vh;
        }
        .header {
            background: linear-gradient(135deg, #001f5c 0%, #002d7a 100%);
            color: white;
            padding: 60px 40px;
            text-align: center;
            box-shadow: 0 4px 20px rgba(0, 31, 92, 0.15);
        }
        .header h1 {
            font-size: 2.5em;
            font-weight: 700;
            margin-bottom: 15px;
            letter-spacing: -0.5px;
        }
        .header p {
            font-size: 1.1em;
            opacity: 0.9;
            max-width: 700px;
            margin: 0 auto;
            font-weight: 300;
        }
        .container {
            max-width: 1200px;
            margin: -30px auto 60px;
            padding: 0 40px;
        }
        .trainer-card {
            background: white;
            border-radius: 16px;
            box-shadow: 0 4px 24px rgba(0, 0, 0, 0.06);
            margin-bottom: 30px;
            overflow: hidden;
            transition: transform 0.2s ease, box-shadow 0.2s ease;
        }
        .trainer-card:hover {
            transform: translateY(-4px);
            box-shadow: 0 8px 32px rgba(0, 0, 0, 0.1);
        }
        .card-header {
            padding: 35px 40px 25px;
            border-bottom: 1px solid #f0f0f0;
        }
        .rank-badge {
            display: inline-flex;
            align-items: center;
            justify-content: center;
            width: 40px;
            height: 40px;
            border-radius: 50%;
            font-weight: 700;
            font-size: 1.1em;
            margin-bottom: 15px;
            color: white;
        }
        .rank-1 {
            background: linear-gradient(135deg, #FFD700 0%, #FFA500 100%);
            box-shadow: 0 4px 12px rgba(255, 215, 0, 0.3);
        }
        .rank-2 {
            background: linear-gradient(135deg, #C0C0C0 0%, #A8A8A8 100%);
            box-shadow: 0 4px 12px rgba(192, 192, 192, 0.3);
        }
        .trainer-name {
            font-size: 1.6em;
            font-weight: 600;
            color: #001f5c;
            margin: 10px 0;
        }
        .card-body {
            padding: 30px 40px;
        }
        .metrics-grid {
            display: grid;
            grid-template-columns: repeat(auto-fit, minmax(140px, 1fr));
            gap: 20px;
            margin-bottom: 35px;
        }
        .metric {
            background: #f8f9fb;
            padding: 24px 20px;
            border-radius: 12px;
            text-align: center;
            border: 1px solid #e8ecf1;
            transition: all 0.2s ease;
        }
        .metric:hover {
            background: #f0f2f5;
            transform: translateY(-2px);
        }
        .metric-label {
            font-size: 0.75em;
            color: #6b7280;
            text-transform: uppercase;
            letter-spacing: 0.5px;
            margin-bottom: 8px;
            font-weight: 600;
        }
        .metric-value {
            font-size: 2em;
            font-weight: 700;
            color: #001f5c;
            line-height: 1;
        }
        .improvement-positive {
            color: #10b981;
        }
        .case-study {
            background: linear-gradient(135deg, #e6f7ed 0%, #d1f0dd 100%);
            border-radius: 12px;
            padding: 24px 28px;
            margin-bottom: 35px;
            border-left: 5px solid #10b981;
            position: relative;
        }
        .case-study::before {
            content: " +:+ dq +:+ "💡" +:+ dq +:+ ";
            font-size: 1.5em;
            position: absolute;
            top: 20px;
            right: 24px;
            opacity: 0.3;
        }
        .case-study-label {
            font-size: 0.75em;
            text-transform: uppercase;
            color: #059669;
            font-weight: 700;
            letter-spacing: 0.5px;
            margin-bottom: 8px;
        }
        .case-study-text {
            color: #064e3b;
            font-size: 1.05em;
            line-height: 1.6;
            font-weight: 500;
        }
        .section-title {
            font-size: 1.3em;
            font-weight: 600;
            color: #001f5c;
            margin-bottom: 20px;
            display: flex;
            align-items: center;
        }
        .section-title::before {
            content: " +:+ dq +:+ dq +:+ ";
            display: inline-block;
            width: 4px;
            height: 24px;
            background: linear-gradient(135deg, #e91e63 0%, #ff1493 100%);
            border-radius: 2px;
            margin-right: 12px;
        }
        .quote {
            background: white;
            border: 2px solid #f0f0f0;
            border-radius: 12px;
            padding: 24px 28px;
            margin-bottom: 20px;
            position: relative;
            transition: all 0.2s ease;
        }
        .quote:hover {
            border-color: #e91e63;
            box-shadow: 0 4px 16px rgba(233, 30, 99, 0.1);
        }
        .quote::before {
            content: " +:+ dq +:+ "\201C" +:+ dq +:+ ";
            font-size: 4em;
            color: #f0f0f0;
            position: absolute;
            top: 10px;
            left: 20px;
            font-family: Georgia, serif;
            line-height: 1;
        }
        .quote-text {
            color: #374151;
            line-height: 1.7;
            font-size: 1.05em;
            padding-left: 40px;
            position: relative;
        }
        .quote-meta {
            display: flex;
            align-items: center;
            gap: 12px;
            margin-top: 16px;
            padding-left: 40px;
            font-size: 0.85em;
        }
        .row-id {
            background: linear-gradient(135deg, #e91e63 0%, #ff1493 100%);
            color: white;
            padding: 4px 12px;
            border-radius: 6px;
            font-family: 'SF Mono', 'Monaco', 'Menlo', monospace;
            font-size: 0.9em;
            font-weight: 600;
            letter-spacing: 0.5px;
        }
        .source-label {
            color: #9ca3af;
            font-size: 0.95em;
        }
        footer {
            text-align: center;
            padding: 40px 20px;
            color: #6b7280;
            font-size: 0.9em;
        }
        footer .logo {
            font-weight: 700;
            color: #001f5c;
            font-size: 1.2em;
            margin-bottom: 8px;
        }
        @media (max-width: 768px) {
            .header {
                padding: 40px 20px;
            }
            .header h1 {
                font-size: 1.8em;
            }
            .container {
                padding: 0 20px;
            }
            .card-header, .card-body {
                padding: 25px 20px;
            }
            .metrics-grid {
                grid-template-columns: repeat(2, 1fr);
            }
        }
    </style>
</head>
<body>
    <div class=" +:+ dq +:+ "header" +:+ dq +:+ ">
        <h1>Trainer Improvement Analysis</h1>
        <p>Top performing trainers showing the greatest improvement in participant feedback scores over time</p>
    </div>

    <div class=" +:+ dq +:+ "container" +:+ dq +:+ ">
".

(** Lines 369-370: the label of the column a quote was read from.  The test
    ['_' in source] is the test that the split has a second element. *)
Definition source_clean (source : string) : string :=
  let source_clean :=
    match Py.split_1 "_" source with
    | Some (_, after) => after
    | None => source
    end in
  Py.strip (Py.remove_char "*" source_clean).

(** Lines 379-382 and 384-394. *)
Definition card_end : string :=
  "
            </div>
        </div>
".

Definition html_foot : string :=
  "
    </div>

    <footer>
        <div class=" +:+ dq +:+ "logo" +:+ dq +:+ ">be/impact</div>
        <p>Trainer Feedback Analysis System</p>
    </footer>
</body>
</html>
".

(** Lines 371-377. *)
Definition quote_block (quote : Quote) (source_clean : string) : string :=
  "
                <div class=" +:+ dq +:+ "quote" +:+ dq +:+ ">
                    <div class=" +:+ dq +:+ "quote-text" +:+ dq +:+ ">" +:+ q_quote quote +:+ "</div>
                    <div class=" +:+ dq +:+ "quote-meta" +:+ dq +:+ ">
                        <span class=" +:+ dq +:+ "row-id" +:+ dq +:+ ">" +:+ q_row_id quote +:+ "</span>
                        <span class=" +:+ dq +:+ "source-label" +:+ dq +:+ ">" +:+ source_clean +:+ "</span>
                    </div>
                </div>
".

Section Report.

(** [format(x, '.nf')]: [x] in fixed-point notation with [n] decimals. *)
Variable format_f : nat → Q → string.

(** Lines 334-366. *)
Definition card_head (rank_class improvement_sign : string) (result : Result) : string :=
  "
        <div class=" +:+ dq +:+ "trainer-card" +:+ dq +:+ ">
            <div class=" +:+ dq +:+ "card-header" +:+ dq +:+ ">
                <div class=" +:+ dq +:+ "rank-badge " +:+ rank_class +:+ dq +:+ ">#" +:+ Py.str (rank result) +:+ "</div>
                <div class=" +:+ dq +:+ "trainer-name" +:+ dq +:+ ">" +:+ trainer_name result +:+ "</div>
            </div>

            <div class=" +:+ dq +:+ "card-body" +:+ dq +:+ ">
                <div class=" +:+ dq +:+ "metrics-grid" +:+ dq +:+ ">
                    <div class=" +:+ dq +:+ "metric" +:+ dq +:+ ">
                        <div class=" +:+ dq +:+ "metric-label" +:+ dq +:+ ">Responses</div>
                        <div class=" +:+ dq +:+ "metric-value" +:+ dq +:+ ">" +:+ Py.str (r_n_responses result) +:+ "</div>
                    </div>
                    <div class=" +:+ dq +:+ "metric" +:+ dq +:+ ">
                        <div class=" +:+ dq +:+ "metric-label" +:+ dq +:+ ">Early Score</div>
                        <div class=" +:+ dq +:+ "metric-value" +:+ dq +:+ ">" +:+ format_f 2 (mean_early_score result) +:+ "</div>
                    </div>
                    <div class=" +:+ dq +:+ "metric" +:+ dq +:+ ">
                        <div class=" +:+ dq +:+ "metric-label" +:+ dq +:+ ">Late Score</div>
                        <div class=" +:+ dq +:+ "metric-value" +:+ dq +:+ ">" +:+ format_f 2 (mean_late_score result) +:+ "</div>
                    </div>
                    <div class=" +:+ dq +:+ "metric" +:+ dq +:+ ">
                        <div class=" +:+ dq +:+ "metric-label" +:+ dq +:+ ">Improvement</div>
                        <div class=" +:+ dq +:+ "metric-value improvement-positive" +:+ dq +:+ ">" +:+ improvement_sign +:+ format_f 3 (improvement_score result) +:+ "</div>
                    </div>
                </div>

                <div class=" +:+ dq +:+ "case-study" +:+ dq +:+ ">
                    <div class=" +:+ dq +:+ "case-study-label" +:+ dq +:+ ">Case Study Angle</div>
                    <div class=" +:+ dq +:+ "case-study-text" +:+ dq +:+ ">" +:+ case_study_angle result +:+ "</div>
                </div>

                <div class=" +:+ dq +:+ "section-title" +:+ dq +:+ ">Positive Feedback</div>
".

(** The body of the loop over [results] (lines 330-382); [html] is the page
    written so far. *)
Definition result_card (html : string) (result : Result) : string :=
  let rank_class := "rank-" +:+ Py.str (rank result) in
  let improvement_sign :=
    if Qle_bool 0 (improvement_score result) then "+" else EmptyString in
  let html := html +:+ card_head rank_class improvement_sign result in
  let html :=
    foldl (fun html quote =>
             html +:+ quote_block quote (source_clean (q_source_column quote)))
          html (quotes result) in
  html +:+ card_end.

Definition generate_html_report (results : list Result) : string :=
  foldl result_card html_head results +:+ html_foot.

End Report.

(** The element of the page that shows a quote, and the one that shows the
    name of a trainer. *)
Definition quote_text_div (text : string) : string :=
  "<div class=" +:+ dq +:+ "quote-text" +:+ dq +:+ ">" +:+ text +:+ "</div>".

Definition trainer_name_div (name : string) : string :=
  "<div class=" +:+ dq +:+ "trainer-name" +:+ dq +:+ ">" +:+ name +:+ "</div>".

(** ** numpy's argsort, kind='quicksort'

    The sort behind [sort_values] (no [kind] given, hence pandas' default
    [kind='quicksort']) is numpy's [aquicksort_] over the datetime keys
    (numpy/_core/src/npysort/quicksort.cpp and heapsort.cpp): an
    introsort on the array [tosort] of positions, with median-of-three
    partitioning, insertion sort on segments of at most 16 positions and
    heapsort once the depth budget of a segment is used up.  Pointers into
    [tosort] are positions in a list; every loop carries a fuel that the
    loop cannot exhaust on a list of that length. *)

Module Np.

(** A segment is partitioned while [pr - pl], the distance of its first
    and its last position, is above this bound: a segment of 17 positions
    or more is partitioned, one of 16 or fewer goes to the insertion sort. *)
Definition SMALL_QUICKSORT : nat := 15.

Section ArgSort.

(** The keys [v]; [tosort] holds positions into [v]. *)
Variable v : list Z.

Definition less (a b : Z) : bool := Z.ltb a b.

(** [tosort[p]] and [v[tosort[p]]] *)
Definition at_ (tosort : list nat) (p : nat) : nat := default 0 (tosort !! p).
Definition key_at (tosort : list nat) (p : nat) : Z := default 0%Z (v !! at_ tosort p).
Definition key_of (i : nat) : Z := default 0%Z (v !! i).

(** [INTP_SWAP(tosort[i], tosort[j])] *)
Definition swap (tosort : list nat) (i j : nat) : list nat :=
  <[j := at_ tosort i]> (<[i := at_ tosort j]> tosort).

(** [do { ++pi; } while (less(v[*pi], vp));] *)
Fixpoint scan_up (tosort : list nat) (vp : Z) (pi fuel : nat) : nat :=
  match fuel with
  | O => pi
  | S fuel =>
      let pi := S pi in
      if less (key_at tosort pi) vp then scan_up tosort vp pi fuel else pi
  end.

(** [do { --pj; } while (less(vp, v[*pj]));] *)
Fixpoint scan_down (tosort : list nat) (vp : Z) (pj fuel : nat) : nat :=
  match fuel with
  | O => pj
  | S fuel =>
      let pj := Nat.pred pj in
      if less vp (key_at tosort pj) then scan_down tosort vp pj fuel else pj
  end.

(** The [for (;;)] loop of the partition. *)
Fixpoint partition_loop (tosort : list nat) (vp : Z) (pi pj fuel : nat) : list nat * nat :=
  match fuel with
  | O => (tosort, pi)
  | S fuel =>
      let pi := scan_up tosort vp pi (length tosort) in
      let pj := scan_down tosort vp pj (length tosort) in
      if Nat.leb pj pi then (tosort, pi)
      else partition_loop (swap tosort pi pj) vp pi pj fuel
  end.

(** One pass of the [while ((pr - pl) > SMALL_QUICKSORT)] body up to the
    final swap: the new [tosort] and the position [pi] of the pivot. *)
Definition partition (tosort : list nat) (pl pr : nat) : list nat * nat :=
  let pm := pl + Nat.div (pr - pl) 2 in
  let tosort := if less (key_at tosort pm) (key_at tosort pl) then swap tosort pm pl else tosort in
  let tosort := if less (key_at tosort pr) (key_at tosort pm) then swap tosort pr pm else tosort in
  let tosort := if less (key_at tosort pm) (key_at tosort pl) then swap tosort pm pl else tosort in
  let vp := key_at tosort pm in
  let pj := pr - 1 in
  let tosort := swap tosort pm pj in
  let '(tosort, pi) := partition_loop tosort vp pl pj (length tosort) in
  (swap tosort pi (pr - 1), pi).

(** A stack entry: the bounds [pl], [pr] of a segment and its depth budget. *)
Definition frame : Type := nat * nat * Z.

(** The inner [while]: partition, push the larger part, go on with the
    smaller one. *)
Fixpoint quick_loop (tosort : list nat) (pl pr : nat) (stack : list frame) (cdepth : Z)
    (fuel : nat) : list nat * nat * nat * list frame :=
  match fuel with
  | O => (tosort, pl, pr, stack)
  | S fuel =>
      if Nat.ltb SMALL_QUICKSORT (pr - pl) then
        let '(tosort, pi) := partition tosort pl pr in
        let cdepth := (cdepth - 1)%Z in
        if Nat.ltb (pi - pl) (pr - pi)
        then quick_loop tosort pl (pi - 1) ((pi + 1, pr, cdepth) :: stack) cdepth fuel
        else quick_loop tosort (pi + 1) pr ((pl, pi - 1, cdepth) :: stack) cdepth fuel
      else (tosort, pl, pr, stack)
  end.

(** [while (pj > pl && less(vp, v[*pk])) { *pj-- = *pk--; }] *)
Fixpoint shift_right (tosort : list nat) (pl : nat) (vp : Z) (pj fuel : nat) : list nat * nat :=
  match fuel with
  | O => (tosort, pj)
  | S fuel =>
      if Nat.ltb pl pj && less vp (key_at tosort (pj - 1))
      then shift_right (<[pj := at_ tosort (pj - 1)]> tosort) pl vp (pj - 1) fuel
      else (tosort, pj)
  end.

Definition insert_at (tosort : list nat) (pl pi : nat) : list nat :=
  let vi := at_ tosort pi in
  let '(tosort, pj) := shift_right tosort pl (key_of vi) pi (length tosort) in
  <[pj := vi]> tosort.

(** [for (pi = pl + 1; pi <= pr; ++pi)] *)
Definition insertion_sort (tosort : list nat) (pl pr : nat) : list nat :=
  foldl (fun t pi => insert_at t pl pi) tosort (seq (pl + 1) (pr - pl)).

(** Heapsort of the [n] positions from [pl] on; [a[k]] is [tosort[pl + k - 1]]. *)
Fixpoint sift (tosort : list nat) (pl n tmp i j fuel : nat) : list nat :=
  match fuel with
  | O => <[pl + i - 1 := tmp]> tosort
  | S fuel =>
      if Nat.leb j n then
        let j := if Nat.ltb j n && less (key_at tosort (pl + j - 1)) (key_at tosort (pl + j))
                 then j + 1 else j in
        if less (key_of tmp) (key_at tosort (pl + j - 1))
        then sift (<[pl + i - 1 := at_ tosort (pl + j - 1)]> tosort) pl n tmp j (j + j) fuel
        else <[pl + i - 1 := tmp]> tosort
      else <[pl + i - 1 := tmp]> tosort
  end.

Definition heapify (tosort : list nat) (pl n : nat) : list nat :=
  foldl (fun t l => sift t pl n (at_ t (pl + l - 1)) l (2 * l) n)
        tosort (rev (seq 1 (Nat.div n 2))).

Definition extract_max (tosort : list nat) (pl n : nat) : list nat :=
  let tmp := at_ tosort (pl + n - 1) in
  let tosort := <[pl + n - 1 := at_ tosort pl]> tosort in
  sift tosort pl (n - 1) tmp 1 2 n.

Definition aheapsort (tosort : list nat) (pl n : nat) : list nat :=
  foldl (fun t m => extract_max t pl m) (heapify tosort pl n) (rev (seq 2 (n - 1))).

(** The outer [while (1)]: one segment per turn, then [stack_pop]. *)
Fixpoint sort_loop (tosort : list nat) (pl pr : nat) (stack : list frame) (cdepth : Z)
    (fuel : nat) : list nat :=
  match fuel with
  | O => tosort
  | S fuel =>
      let '(tosort, stack) :=
        if Z.ltb cdepth 0 then (aheapsort tosort pl (pr - pl + 1), stack)
        else
          let '(tosort, pl, pr, stack) := quick_loop tosort pl pr stack cdepth (length tosort) in
          (insertion_sort tosort pl pr, stack) in
      match stack with
      | [] => tosort
      | (pl, pr, cdepth) :: stack => sort_loop tosort pl pr stack cdepth fuel
      end
  end.

End ArgSort.

(** [npy_get_msb(num)] *)
Definition npy_get_msb (num : nat) : nat := Nat.log2 num.

(** [numpy.argsort(v, kind='quicksort')]: [tosort] starts as [0 .. num-1]. *)
Definition argsort (v : list Z) : list nat :=
  let num := length v in
  if Nat.eqb num 0 then []
  else sort_loop v (seq 0 num) 0 (num - 1) [] (Z.of_nat (npy_get_msb num) * 2) (S num).

End Np.

(** ** Outreach e-mails (generate_outreach.py) *)

Module Outreach.

(** The exception a failed run ends with. *)
Inductive PyError : Type := IndexError.

(** [l[i]] for [i >= 0]: the element, or [IndexError] past the end. *)
Definition getitem {A} (l : list A) (i : nat) : PyError + A :=
  match l !! i with
  | Some x => inr x
  | None => inl IndexError
  end.

Record Email := mkEmail {
  e_trainer_name : string;
  trainer_email : string;
  email_subject : string;
  email_body : string;
  evidence_quote : string;
  evidence_row_id : string;
  generated_at : string;
}.

(** Lines 11-18. [split] always returns at least one part, so taking
    part 0 cannot fail. *)
Definition extract_first_name (email : string) : string :=
  let username := Py.split_head "@" email in
  let first_part := Py.split_head "_" (Py.split_head "." username) in
  Py.capitalize first_part.

Definition dquote : string := String (ascii_of_nat 34) EmptyString.

Definition subject_of (first_name : string) : string :=
  "Your training impact is showing up in the feedback, " +:+ first_name +:+ "!".

Definition body_of (first_name evidence_quote : string) : string :=
  "Hi " +:+ first_name +:+
  ",

I wanted to reach out personally because I've been reviewing our trainer feedback data and your name kept coming up in a really positive way.

Over the past few months, we've seen strong improvement in your training scores and the feedback from learners has been genuinely impressive. Here's one that really stood out to me:

" +:+ dquote +:+ evidence_quote +:+ dquote +:+
  "

That kind of feedback tells us you're doing something right, and we'd love to capture and share what's working for you.

Would you be up for helping us with two quick things?

1. A short testimonial quote from you (just a sentence or two about your experience as a trainer with us)
2. Either a 15-20 min chat or a quick written Q&A where we can learn more about your approach to training

We're building out some case studies and best practices to help other trainers, and your insights would be really valuable.

Just reply to this email and let me know if you're interested. No pressure if you're swamped — I totally get it.

Thanks for being such a great part of the team!

Best,
[Your name]".

(** Lines 21-66; [now] is the text of [datetime.now().isoformat()].  The
    two subscripts [trainer_data['quotes'][0]] of lines 27 and 28 are
    evaluated one after the other. *)
Definition generate_email (now : string) (trainer_data : Result) : PyError + Email :=
  let first_name := extract_first_name (trainer_name trainer_data) in
  let email := trainer_name trainer_data in
  match getitem (quotes trainer_data) 0 with
  | inl e => inl e
  | inr q27 =>
      match getitem (quotes trainer_data) 0 with
      | inl e => inl e
      | inr q28 =>
          let quote := q_quote q27 in
          let rid := q_row_id q28 in
          inr (mkEmail first_name email (subject_of first_name)
                       (body_of first_name quote) quote rid now)
      end
  end.

(** The loop of lines 83-85: the first exception ends the run.  [clock i]
    is the time of the call for the trainer at position [i]. *)
Fixpoint generate_all (clock : nat → string) (i : nat) (trainers : list Result)
    : PyError + list Email :=
  match trainers with
  | [] => inr []
  | trainer :: rest =>
      match generate_email (clock i) trainer with
      | inl e => inl e
      | inr email_data =>
          match generate_all clock (S i) rest with
          | inl e => inl e
          | inr outreach_emails => inr (email_data :: outreach_emails)
          end
      end
  end.

Definition main (clock : nat → string) (trainers : list Result) : PyError + list Email :=
  generate_all clock 0 trainers.

End Outreach.

(** ** What a sort of the cohort has to deliver *)

(** [idx] lists every position of [keys] once, in ascending order of the
    keys: the documented result of [argsort], whatever its [kind]. *)
Definition sorted_positions (keys : list Z) (idx : list nat) : Prop :=
  idx ≡ₚ seq 0 (length keys) ∧ StronglySorted Z.le (omap (fun i => keys !! i) idx).

(** Position [i] may stand before position [j] in the stable sort of
    [keys]: its key is smaller, or equal with [i] the earlier position. *)
Definition stable_lt (keys : list Z) (i j : nat) : Prop :=
  (Np.key_of keys i < Np.key_of keys j)%Z ∨
  (Np.key_of keys i = Np.key_of keys j ∧ (i < j)%nat).

(** One step of insertion sort on a sorted run kept in reverse ([racc],
    largest key first): [i] passes the positions of larger key and stops
    at the first one whose key is not larger. *)
Fixpoint insert_from_right (keys : list Z) (i : nat) (racc : list nat) : list nat :=
  match racc with
  | [] => [i]
  | j :: racc' =>
      if Np.less (Np.key_of keys i) (Np.key_of keys j)
      then j :: insert_from_right keys i racc'
      else i :: racc
  end.

(** Ascending order of timestamps, NaT last. *)
Definition timestamp_le (a b : Row) : Prop :=
  match creation_datetime a, creation_datetime b with
  | Some x, Some y => (x ≤ y)%Z
  | _, None => True
  | None, Some _ => False
  end.

(** The valid records of trainer [t] (the group [groupby] makes for it) and
    their timestamps. *)
Definition group_of (df : DataFrame) (t : string) : list Row :=
  filter (fun r => Trainer r = Some t) (valid_rows df).

Definition timestamps (group : list Row) : list Z := dropna (creation_datetime <$> group).

(** ** Sample data and reference quantities *)

Definition col_like : string := "3.12 What did you like about the training?".
Definition col_more : string := "3.13 Anything else you would like to share?".

(** A row as the CSV reader hands it over: no [row_id] yet. *)
Definition csv_row (t : option string) (ts : option Z) (sc : list (option Q))
    (texts : list (string * string)) : Row :=
  mkRow "" t ts sc (list_to_map texts).

(** Four trainers: anna (4 valid records, one of them without any score,
    two qualifying texts in her first record), bob (3 records, one without
    a date), carl (3 records, no text) and dora (3 records, the earliest
    without any score); one record names no trainer. *)
Definition df_demo : DataFrame :=
  mkDataFrame ["Trainer"; "Creation Date"; "1.3 Overall"; "1.4 Pace"; col_like; col_more]
    [ csv_row (Some "anna.weber@example.org") (Some 10%Z) [Some 2%Q; None]
        [(col_like, "The sessions were great and very clear");
         (col_more, "I really enjoyed every single session a lot")];
      csv_row (Some "anna.weber@example.org") (Some 30%Z) [Some 4%Q; Some 5%Q]
        [(col_like, "-")];
      csv_row (Some "bob") (Some 5%Z) [Some 4%Q; None] [];
      csv_row (Some "anna.weber@example.org") (Some 20%Z) [None; None]
        [(col_more, "ok")];
      csv_row (Some "anna.weber@example.org") (Some 40%Z) [Some 5%Q; None] [];
      csv_row (Some "carl_m@example.org") (Some 1%Z) [Some 3%Q; Some 3%Q] [];
      csv_row (Some "carl_m@example.org") (Some 2%Z) [Some 3%Q; Some 4%Q] [];
      csv_row (Some "carl_m@example.org") (Some 3%Z) [Some 4%Q; Some 4%Q] [];
      csv_row (Some "dora") (Some 1%Z) [None; None] [];
      csv_row (Some "dora") (Some 2%Z) [Some 3%Q; None] [];
      csv_row (Some "dora") (Some 3%Z) [Some 4%Q; None] [];
      csv_row (Some "bob") (Some 6%Z) [Some 5%Q; None] [];
      csv_row None (Some 7%Z) [Some 5%Q; None] [];
      csv_row (Some "bob") None [Some 1%Q; None] [] ].

(** Anna's records alone. *)
Definition df_anna : DataFrame :=
  mkDataFrame (columns df_demo)
    (filter (fun r => Trainer r = Some "anna.weber@example.org") (rows df_demo)).

(** Eighteen records of one trainer, all created at the same minute: the
    first nine rated 1, the last nine rated 5. *)
Definition df_ties : DataFrame :=
  mkDataFrame ["Trainer"; "Creation Date"; "1.3 Overall"]
    ((fun i => csv_row (Some "tina") (Some 0%Z) [Some (if Nat.ltb i 9 then 1%Q else 5%Q)] [])
       <$> seq 0 18).

(** A text of [n + 6] characters that holds the keyword "great". *)
Definition sample_text (n : nat) : string :=
  "great " +:+ String.concat "" (replicate n "x").





(** Strict order of trainer names, as Python compares strings. *)
Definition name_lt (s1 s2 : string) : Prop := String.le s1 s2 ∧ s1 ≠ s2.

(** Reading a [row_id] back: the number after the letter R. *)
Definition row_number (rid : string) : option nat :=
  match rid with
  | String c s =>
      if Ascii.eqb c "R" then Nat.of_uint <$> NilEmpty.uint_of_string s else None
  | EmptyString => None
  end.

(** A word as [split] returns it: not empty and free of white space. *)
Definition is_word (w : string) : Prop :=
  w ≠ "" ∧ Forall (fun c => Py.isspace c = false) (list_ascii_of_string w).

(** A line of the console layout is fine when it fits into 70 columns or
    holds at most one word. *)
Definition fits (line_words : list string) : Prop :=
  (Py.len (Py.join " " line_words) ≤ 70)%nat ∨ (length line_words ≤ 1)%nat.

(** The condition under which a value of a text column is to yield a
    quote, in the words of the specification: the value is present, it is
    not empty, not "nan" and not "-", its trimmed form has at least 20
    characters, and its lower-cased trimmed form contains one of the
    keywords as a contiguous substring. *)
Definition qualifies (text : option string) : Prop :=
  ∃ t, text = Some t ∧ t ≠ EmptyString ∧ t ≠ "nan" ∧ t ≠ "-" ∧
       (20 ≤ Py.len (Py.strip t))%nat ∧
       ∃ kw pre post, kw ∈ positive_keywords ∧
                      Py.lower (Py.strip t) = pre +:+ kw +:+ post.

(** A frame of one row, numbered R0001, whose only column [col] holds
    [text]. *)
Definition one_cell (col : string) (text : option string) : DataFrame :=
  mkDataFrame [col]
    [mkRow "R0001" None None []
       (match text with Some t => {[ col := t ]} | None => ∅ end)].

(** * Properties *)

(** ** Strings *)

Lemma prefix_true_iff (p s : string) :
  String.prefix p s = true ↔ ∃ post, s = p +:+ post.
Proof.
  revert s. induction p as [|c p IH]; intros s.
  - destruct s; simpl; split; eauto.
  - destruct s as [|d s]; simpl.
    + split; [discriminate | intros [post H]; discriminate].
    + destruct (ascii_dec c d) as [->|Hne].
      * rewrite IH. split; intros [post H]; exists post; [by rewrite H | by injection H].
      * split; [discriminate | intros [post H]; injection H; congruence].
Qed.

Lemma contains_true_iff (s kw : string) :
  Py.contains s kw = true ↔ ∃ pre post, s = pre +:+ kw +:+ post.
Proof.
  induction s as [|c s IH]; cbn [Py.contains].
  - rewrite orb_false_r, prefix_true_iff. split.
    + intros [post H]. by exists "", post.
    + intros (pre & post & H). destruct pre; [by exists post | discriminate].
  - rewrite orb_true_iff, prefix_true_iff, IH. split.
    + intros [[post H] | (pre & post & H)].
      * by exists "", post.
      * exists (String c pre), post. simpl. by rewrite H.
    + intros (pre & post & H). destruct pre as [|d pre]; simpl in H.
      * left. by exists post.
      * right. injection H as _ H. by exists pre, post.
Qed.


Lemma slice_to_len (n : nat) (s : string) :
  Py.len (Py.slice_to n s) = Nat.min n (Py.len s).
Proof.
  unfold Py.len. revert s.
  induction n as [|n IH]; intros [|c s]; simpl; auto.
Qed.

Lemma append_len (s t : string) : Py.len (s +:+ t) = Py.len s + Py.len t.
Proof.
  unfold Py.len. induction s as [|c s IH]; [done|].
  change (S (String.length (s +:+ t)) = S (String.length s) + String.length t).
  by rewrite IH.
Qed.

(** ** Quote extraction *)

Lemma quote_of_cell_Some (rid col : string) (text : option string) (q : Quote) :
  quote_of_cell rid col text = Some q ↔
  ∃ t, text = Some t ∧ t ≠ "" ∧ t ≠ "nan" ∧ t ≠ "-" ∧
       (20 ≤ Py.len (Py.strip t))%nat ∧
       has_positive (Py.lower (Py.strip t)) = true ∧
       q = mkQuote rid (limit_quote (Py.strip t)) col.
Proof.
  unfold quote_of_cell, is_blank. destruct text as [t|]; simpl.
  - repeat case_bool_decide; simpl;
      try (split; [discriminate | intros (? & [= <-] & ? & ? & ? & _); congruence]).
    destruct (Nat.ltb_spec (Py.len (Py.strip t)) 20).
    + split; [discriminate | intros (? & [= <-] & _ & _ & _ & ? & _); lia].
    + destruct (has_positive _) eqn:Hpos.
      * split.
        -- intros [= <-]. exists t. repeat split; auto.
        -- intros (? & [= <-] & _ & _ & _ & _ & _ & ->). done.
      * split; [discriminate | intros (? & [= <-] & _ & _ & _ & _ & ? & _); congruence].
  - split; [discriminate | intros (? & ? & _); discriminate].
Qed.

Lemma has_positive_iff (s : string) :
  has_positive s = true ↔
  ∃ kw pre post, kw ∈ positive_keywords ∧ s = pre +:+ kw +:+ post.
Proof.
  unfold has_positive, Py.any. rewrite existsb_exists. split.
  - intros (kw & Hin & Hc). apply contains_true_iff in Hc as (pre & post & ?).
    exists kw, pre, post. split; [by apply list_elem_of_In | done].
  - intros (kw & pre & post & Hin & ?). exists kw. split; [by apply list_elem_of_In|].
    apply contains_true_iff. eauto.
Qed.

Lemma elem_of_extract_positive_quotes (df : DataFrame) (cols : list string) (q : Quote) :
  q ∈ extract_positive_quotes df cols ↔
  ∃ col row, col ∈ cols ∧ col ∈ columns df ∧ row ∈ rows df ∧
             quote_of_cell (row_id row) col (cells row !! col) = Some q.
Proof.
  unfold extract_positive_quotes. rewrite list_elem_of_In, in_flat_map. split.
  - intros (col & Hcol & Hq). apply list_elem_of_In in Hcol, Hq.
    case_bool_decide; [|by apply not_elem_of_nil in Hq].
    apply list_elem_of_omap in Hq as (row & Hrow & Hq). by exists col, row.
  - intros (col & row & Hcol & Hin & Hrow & Hq). exists col.
    split; [by apply list_elem_of_In|]. apply list_elem_of_In.
    rewrite bool_decide_eq_true_2 by done. apply list_elem_of_omap. by exists row.
Qed.



(** C9. A value of a text column yields a quote exactly when it is
    present, not empty, not "nan" and not "-", its trimmed form has at
    least 20 characters and its lower-cased trimmed form contains one of
    the 18 keywords as a contiguous substring: the quotes that
    [extract_positive_quotes] returns are those of the qualifying values of
    the text columns of the frame, each with its row and its column; one
    value gives one quote when it qualifies and none when it does not.  The
    match is neither case-sensitive nor whole-word. *)
Theorem quote_qualification :
  (∀ (df : DataFrame) (text_cols : list string) (q : Quote),
     q ∈ extract_positive_quotes df text_cols ↔
     ∃ col row t,
       col ∈ text_cols ∧ col ∈ columns df ∧ row ∈ rows df ∧
       cells row !! col = Some t ∧ qualifies (cells row !! col) ∧
       q = mkQuote (row_id row) (limit_quote (Py.strip t)) col) ∧
  (∀ (cols : list string) (col : string) (row : Row),
     col ∈ cols →
     (∀ t, cells row !! col = Some t → qualifies (cells row !! col) →
           extract_positive_quotes (mkDataFrame cols [row]) [col]
           = [mkQuote (row_id row) (limit_quote (Py.strip t)) col]) ∧
     (¬ qualifies (cells row !! col) →
      extract_positive_quotes (mkDataFrame cols [row]) [col] = [])) ∧
  length positive_keywords = 18%nat ∧
  NoDup positive_keywords ∧
  (let t := "She taught APPRECIATEDLY and well" in
   extract_positive_quotes (one_cell "3.12" (Some t)) ["3.12"] = [mkQuote "R0001" t "3.12"] ∧
   filter (fun kw => Py.contains (Py.lower (Py.strip t)) kw = true) positive_keywords
     = ["appreciated"]) ∧
  extract_positive_quotes (one_cell "3.12" (Some "-")) ["3.12"] = [] ∧
  extract_positive_quotes (one_cell "3.12" (Some "nan")) ["3.12"] = [] ∧
  extract_positive_quotes (one_cell "3.12" (Some "so great")) ["3.12"] = [] ∧
  extract_positive_quotes
    (one_cell "3.12" (Some "a text of some length without any of them")) ["3.12"] = [] ∧
  extract_positive_quotes (one_cell "3.12" None) ["3.12"] = [].
Proof.
  assert (∀ rid col text q,
            quote_of_cell rid col text = Some q ↔
            ∃ t, text = Some t ∧ qualifies text ∧
                 q = mkQuote rid (limit_quote (Py.strip t)) col) as Hcell.
  { intros rid col text q. rewrite quote_of_cell_Some. unfold qualifies. split.
    - intros (t & -> & ? & ? & ? & ? & Hpos & ->).
      apply has_positive_iff in Hpos as (kw & pre & post & ? & ?).
      exists t. split; [done|]. split; [|done].
      exists t. repeat split; auto. by exists kw, pre, post.
    - intros (t & -> & (t' & [= <-] & ? & ? & ? & ? & kw & pre & post & ? & ?) & ->).
      exists t. repeat split; auto. apply has_positive_iff. by exists kw, pre, post. }
  split; [|split; [|split; [|split; [|split]]]].
  - intros df text_cols q. rewrite elem_of_extract_positive_quotes. split.
    + intros (col & row & ? & ? & ? & (t & Ht & Hq & ->)%Hcell).
      exists col, row, t. by rewrite Ht in *.
    + intros (col & row & t & ? & ? & ? & Ht & Hq & ->).
      exists col, row. repeat split; auto. apply Hcell. by exists t.
  - intros cols col row Hcol.
    assert (extract_positive_quotes (mkDataFrame cols [row]) [col]
            = match quote_of_cell (row_id row) col (cells row !! col) with
              | Some q => [q]
              | None => []
              end) as ->.
    { unfold extract_positive_quotes. cbn [flat_map columns rows].
      rewrite bool_decide_eq_true_2 by done. csimpl.
      destruct (quote_of_cell _ _ _); by rewrite app_nil_r. }
    split.
    + intros t Ht Hq.
      assert (quote_of_cell (row_id row) col (cells row !! col)
              = Some (mkQuote (row_id row) (limit_quote (Py.strip t)) col)) as ->; [|done].
      apply Hcell. by exists t.
    + intros Hnot. destruct (quote_of_cell _ _ _) as [q|] eqn:E; [|done].
      apply Hcell in E as (t & _ & Hq & _). done.
  - reflexivity.
  - apply (bool_decide_unpack _). vm_compute. exact I.
  - split; vm_compute; reflexivity.
  - repeat split; vm_compute; reflexivity.
Qed.

(** ** Narrative bucket *)

Lemma Qltb_lt (x y : Q) : Qltb x y = true ↔ (x < y)%Q.
Proof.
  unfold Qltb. rewrite negb_true_iff. split.
  - intros H. apply Qnot_le_lt. intros Hle. apply Qle_bool_iff in Hle. congruence.
  - intros H. destruct (Qle_bool y x) eqn:E; [|done].
    apply Qle_bool_iff in E. exfalso. by apply (Qlt_not_le x y).
Qed.

Lemma Qltb_ge (x y : Q) : Qltb x y = false ↔ (y <= x)%Q.
Proof.
  unfold Qltb. rewrite negb_false_iff. apply Qle_bool_iff.
Qed.

(** C7. The narrative bucket is a step function of the raw improvement with
    strict thresholds 1, 1/2 and 0: a value equal to a threshold falls into
    the bucket below it, and the rounding applied to the reported
    improvement plays no part in the choice. *)
Theorem narrative_bucket :
  (∀ i : Q,
     ((1 < i)%Q → case_study i = exceptional_growth) ∧
     ((1 # 2 < i)%Q → (i <= 1)%Q → case_study i = strong_improvement) ∧
     ((0 < i)%Q → (i <= 1 # 2)%Q → case_study i = steady_upward_trajectory) ∧
     ((i <= 0)%Q → case_study i = maintained_high_standards)) ∧
  case_study 1 = strong_improvement ∧
  case_study (1 # 2) = steady_upward_trajectory ∧
  case_study 0 = maintained_high_standards ∧
  NoDup [exceptional_growth; strong_improvement; steady_upward_trajectory;
         maintained_high_standards] ∧
  (∀ df idx st,
     case_study_angle (build_result df idx st) = case_study (improvement st)) ∧
  (round (1 # 10000) 3 == 0)%Q ∧
  case_study (1 # 10000) = steady_upward_trajectory ∧
  case_study (round (1 # 10000) 3) = maintained_high_standards.
Proof.
  split; [|repeat split; try reflexivity].
  - intros i. unfold case_study. repeat split.
    + intros H. apply Qltb_lt in H. by rewrite H.
    + intros H1 H2. apply Qltb_lt in H1. apply Qltb_ge in H2. by rewrite H2, H1.
    + intros H1 H2. apply Qltb_lt in H1. apply Qltb_ge in H2.
      assert (Qltb 1 i = false) as ->.
      { apply Qltb_ge. apply Qltb_ge in H2. eapply Qle_trans; [exact H2 | discriminate]. }
      by rewrite H2, H1.
    + intros H.
      assert (Qltb 0 i = false) as H0 by by apply Qltb_ge.
      assert (Qltb (1 # 2) i = false) as ->.
      { apply Qltb_ge. eapply Qle_trans; [exact H | discriminate]. }
      assert (Qltb 1 i = false) as ->.
      { apply Qltb_ge. eapply Qle_trans; [exact H | discriminate]. }
      by rewrite H0.
  - apply (bool_decide_unpack _). vm_compute. exact I.
Qed.

(** ** Python's stable sort with [reverse=True] *)

Section SortReverseFacts.
Context {A K : Type} (ltb : K → K → bool) (key : A → K) (le : K → K → Prop).
Hypothesis le_trans : ∀ a b c, le a b → le b c → le a c.
Hypothesis ltb_true : ∀ a b, ltb a b = true → le a b.
Hypothesis ltb_false : ∀ a b, ltb a b = false → le b a.

Lemma insert_desc_Permutation (x : A) (l : list A) :
  Py.insert_desc ltb key x l ≡ₚ x :: l.
Proof.
  induction l as [|y l IH]; simpl; [done|].
  destruct (ltb (key x) (key y)); [|done].
  rewrite IH. apply perm_swap.
Qed.

Lemma sort_reverse_Permutation (l : list A) : Py.sort_reverse ltb key l ≡ₚ l.
Proof.
  induction l as [|x l IH]; simpl; [done|].
  by rewrite insert_desc_Permutation, IH.
Qed.

Lemma insert_desc_sorted (x : A) (l : list A) :
  StronglySorted (fun a b => le (key b) (key a)) l → StronglySorted (fun a b => le (key b) (key a)) (Py.insert_desc ltb key x l).
Proof.
  induction 1 as [|y l Hs IH Hall]; simpl.
  - repeat constructor.
  - destruct (ltb (key x) (key y)) eqn:E.
    + constructor; [done|].
      rewrite insert_desc_Permutation. constructor; [|done].
      by apply ltb_true.
    + apply ltb_false in E. constructor; [by constructor|].
      constructor; [done|].
      eapply Forall_impl; [exact Hall|]. intros z Hz. simpl in *. eauto.
Qed.

Lemma sort_reverse_sorted (l : list A) :
  StronglySorted (fun a b => le (key b) (key a)) (Py.sort_reverse ltb key l).
Proof.
  induction l as [|x l IH]; simpl; [constructor | by apply insert_desc_sorted].
Qed.

End SortReverseFacts.

Lemma StronglySorted_lookup {A} (R : A → A → Prop) (l : list A) (i j : nat) (a b : A) :
  StronglySorted R l → (i < j)%nat → l !! i = Some a → l !! j = Some b → R a b.
Proof.
  intros Hs. revert i j. induction Hs as [|x l Hs IH Hall]; intros i j Hij Hi Hj.
  - by rewrite lookup_nil in Hi.
  - destruct j as [|j]; [lia|]. destruct i as [|i]; simpl in *.
    + injection Hi as <-. rewrite Forall_forall in Hall. apply Hall.
      eapply list_elem_of_lookup_2. exact Hj.
    + eapply (IH i j); [lia | done | done].
Qed.

(** ** Rounding is monotone *)




(** ** Ranking *)

Lemma ranked_stats_Permutation argsort df :
  ranked_stats argsort df ≡ₚ trainer_stats argsort df.
Proof. apply sort_reverse_Permutation. Qed.


Lemma trainer_stat_Some argsort t group st :
  trainer_stat argsort t group = Some st →
  let cohort := sort_values argsort group in
  (3 ≤ length group)%nat ∧
  half_scores (early_half cohort) ≠ [] ∧
  half_scores (late_half cohort) ≠ [] ∧
  st = mkTrainerStat t (length group)
         (mean (half_scores (early_half cohort)))
         (mean (half_scores (late_half cohort)))
         (mean (half_scores (late_half cohort)) - mean (half_scores (early_half cohort)))%Q
         cohort.
Proof.
  intros H cohort. unfold trainer_stat in H.
  destruct (Nat.ltb_spec (length group) 3); [discriminate|].
  fold cohort in H.
  destruct (half_scores (early_half cohort)) eqn:E1; [discriminate|].
  destruct (half_scores (late_half cohort)) eqn:E2; [discriminate|].
  simpl in H. injection H as <-. repeat split; auto.
Qed.

Lemma trainer_stat_None argsort t group :
  trainer_stat argsort t group = None ↔
  let cohort := sort_values argsort group in
  (length group < 3)%nat ∨
  half_scores (early_half cohort) = [] ∨
  half_scores (late_half cohort) = [].
Proof.
  unfold trainer_stat. cbv zeta.
  destruct (Nat.ltb_spec (length group) 3); [split; auto|].
  destruct (half_scores (early_half _)) eqn:E1; [split; auto|].
  destruct (half_scores (late_half _)) eqn:E2; [split; auto|].
  simpl. split; [discriminate|]. intros [?|[?|?]]; [lia|discriminate|discriminate].
Qed.

Lemma elem_of_trainer_stats argsort df st :
  st ∈ trainer_stats argsort df ↔
  ∃ t, t ∈ group_keys (valid_rows df) ∧
       trainer_stat argsort t (filter (fun r => Trainer r = Some t) (valid_rows df)) = Some st.
Proof.
  unfold trainer_stats, groupby_Trainer. rewrite list_elem_of_omap. split.
  - intros ([t g] & Hin & Hst). apply list_elem_of_fmap in Hin as (t' & [= -> ->] & Hin).
    by exists t'.
  - intros (t & Hin & Hst). eexists (t, _). split; [|exact Hst].
    apply list_elem_of_fmap. by exists t.
Qed.


(** ** Cohort halves *)

(** C4. A cohort of [n] sorted records is split at [n / 2]: the early half
    is the records at positions [0 .. n/2 - 1], the late half those from
    [n/2] on.  For even [n] both halves have [n/2] records, for odd [n] the
    late half has one more, and a cohort of 3 splits into 1 and 2. *)
Theorem cohort_halves (cohort : list Row) :
  let n := length cohort in
  mid_point cohort = (n / 2)%nat ∧
  early_half cohort ++ late_half cohort = cohort ∧
  (∀ i, (i < n / 2)%nat → early_half cohort !! i = cohort !! i) ∧
  (∀ i, late_half cohort !! i = cohort !! (n / 2 + i)%nat) ∧
  length (early_half cohort) = (n / 2)%nat ∧
  length (late_half cohort) = (n - n / 2)%nat ∧
  (Nat.even n = true →
     length (early_half cohort) = (n / 2)%nat ∧ length (late_half cohort) = (n / 2)%nat) ∧
  (Nat.odd n = true →
     length (late_half cohort) = (length (early_half cohort) + 1)%nat) ∧
  (n = 3%nat →
     length (early_half cohort) = 1%nat ∧ length (late_half cohort) = 2%nat) ∧
  (∀ argsort t group st,
     cohort = sort_values argsort group →
     trainer_stat argsort t group = Some st →
     group_df st = cohort ∧
     mean_early st = mean (half_scores (early_half cohort)) ∧
     mean_late st = mean (half_scores (late_half cohort))).
Proof.
  intros n.
  assert (∀ argsort t group st,
            cohort = sort_values argsort group →
            trainer_stat argsort t group = Some st →
            group_df st = cohort ∧
            mean_early st = mean (half_scores (early_half cohort)) ∧
            mean_late st = mean (half_scores (late_half cohort))) as Hstat.
  { intros argsort t group st -> Hst.
    apply trainer_stat_Some in Hst as (_ & _ & _ & ->). auto. }
  unfold early_half, late_half, mid_point in *. fold n in Hstat |- *.
  assert (n / 2 ≤ n)%nat as Hle by (apply Nat.Div0.div_le_upper_bound; lia).
  assert (length (take (n / 2) cohort) = (n / 2)%nat) as Hearly
    by (rewrite length_take; fold n; lia).
  assert (length (drop (n / 2) cohort) = (n - n / 2)%nat) as Hlate
    by (rewrite length_drop; reflexivity).
  pose proof (Nat.div_mod_eq n 2) as Hdiv.
  assert (n mod 2 < 2)%nat as Hmod by (apply Nat.mod_upper_bound; lia).
  split; [reflexivity|].
  split; [apply take_drop|].
  split; [intros i Hi; by apply lookup_take_lt|].
  split; [intros i; apply lookup_drop|].
  split; [exact Hearly|].
  split; [exact Hlate|].
  rewrite Hearly, Hlate.
  split; [|split; [|split]].
  - intros [k Hk]%Nat.even_spec. lia.
  - intros [k Hk]%Nat.odd_spec. lia.
  - intros ->. split; reflexivity.
  - exact Hstat.
Qed.

(** A cohort of three: one record early, two late. *)
Lemma cohort_halves_of_three :
  let cohort := [ mkRow "R0001" (Some "a") (Some 1%Z) [Some 2%Q] ∅;
                  mkRow "R0002" (Some "a") (Some 2%Z) [Some 3%Q] ∅;
                  mkRow "R0003" (Some "a") (Some 3%Z) [Some 4%Q] ∅ ] in
  row_id <$> early_half cohort = ["R0001"] ∧
  row_id <$> late_half cohort = ["R0002"; "R0003"] ∧
  length (early_half cohort) = 1%nat ∧ length (late_half cohort) = 2%nat.
Proof.
  intros cohort.
  split; [reflexivity|]. split; [reflexivity|].
  apply (cohort_halves cohort). reflexivity.
Defined.

(** ** Composite score *)






(** ** Grouping and exclusion *)

Lemma elem_of_group_keys (rs : list Row) (t : string) :
  t ∈ group_keys rs ↔ ∃ r, r ∈ rs ∧ Trainer r = Some t.
Proof.
  unfold group_keys. rewrite merge_sort_Permutation, elem_of_remove_dups.
  apply list_elem_of_omap.
Qed.

Lemma NoDup_group_keys (rs : list Row) : NoDup (group_keys rs).
Proof.
  unfold group_keys. rewrite merge_sort_Permutation. apply NoDup_remove_dups.
Qed.

(** A trainer has an entry in [trainer_stats] exactly when it has at least
    3 valid records and each half of its cohort has a defined composite. *)
Lemma trainer_in_stats_iff argsort df t :
  t ∈ trainer <$> trainer_stats argsort df ↔
  let group := filter (fun r => Trainer r = Some t) (valid_rows df) in
  let cohort := sort_values argsort group in
  (3 ≤ length group)%nat ∧
  half_scores (early_half cohort) ≠ [] ∧
  half_scores (late_half cohort) ≠ [].
Proof.
  cbv zeta. rewrite list_elem_of_fmap. split.
  - intros (st & -> & Hst). apply elem_of_trainer_stats in Hst as (t & _ & Hst).
    apply trainer_stat_Some in Hst as (? & ? & ? & ->). simpl. auto.
  - intros (Hlen & He & Hl).
    destruct (trainer_stat argsort t (filter (fun r => Trainer r = Some t) (valid_rows df)))
      as [st|] eqn:E.
    + exists st. split.
      * apply trainer_stat_Some in E as (_ & _ & _ & ->). reflexivity.
      * apply elem_of_trainer_stats. exists t. split; [|done].
        apply elem_of_group_keys.
        destruct (filter (fun r => Trainer r = Some t) (valid_rows df)) as [|r g] eqn:Eg;
          [simpl in Hlen; lia|].
        assert (r ∈ filter (fun r => Trainer r = Some t) (valid_rows df)) as Hr
          by (rewrite Eg; left).
        apply list_elem_of_filter in Hr as [? ?]. by exists r.
    + apply trainer_stat_None in E. cbv zeta in E.
      destruct E as [?|[?|?]]; [lia | done | done].
Qed.

Lemma main_trainers_in_stats argsort df t :
  t ∈ trainer_name <$> main argsort df → t ∈ trainer <$> trainer_stats argsort df.
Proof.
  rewrite !list_elem_of_fmap. intros (r & -> & Hr).
  apply list_elem_of_lookup_1 in Hr as [i Hi].
  unfold main, top_2 in Hi. rewrite list_lookup_imap in Hi.
  destruct (take 2 (ranked_stats argsort df) !! i) as [st|] eqn:E; [|discriminate].
  injection Hi as <-. exists st. split; [reflexivity|].
  apply lookup_take_Some in E as [E _].
  rewrite <- (ranked_stats_Permutation argsort df).
  eapply list_elem_of_lookup_2. exact E.
Qed.

(** C5. A trainer with fewer than 3 valid records, or with no defined
    composite score in the early half or in the late half of its cohort,
    has no entry in the statistics and none in the output; [main] is a
    total function, so neither condition makes the run fail. *)
Theorem excluded_trainers (argsort : list Z → list nat) (df : DataFrame) (t : string) :
  let group := group_of df t in
  let cohort := sort_values argsort group in
  ((length group < 3)%nat ∨
   half_scores (early_half cohort) = [] ∨
   half_scores (late_half cohort) = []) →
  (t ∉ trainer <$> trainer_stats argsort df) ∧
  (t ∉ trainer_name <$> main argsort df).
Proof.
  intros group cohort Hex. subst group cohort. unfold group_of in Hex.
  assert (t ∉ trainer <$> trainer_stats argsort df) as Hnot.
  { intros Hin. apply trainer_in_stats_iff in Hin as (? & ? & ?).
    destruct Hex as [?|[?|?]]; [lia | done | done]. }
  split; [exact Hnot|].
  intros Hin. apply Hnot. by apply main_trainers_in_stats.
Qed.

(** ** Sorting the cohort *)

Lemma filter_Forall_id {A} (P : A → Prop) `{∀ x, Decision (P x)} (l : list A) :
  Forall P l → filter P l = l.
Proof.
  induction 1 as [|x l Hx Hl IH]; [done|].
  rewrite filter_cons_True by done. by rewrite IH.
Qed.

Lemma filter_Forall_nil {A} (P : A → Prop) `{∀ x, Decision (P x)} (l : list A) :
  Forall (fun x => ¬ P x) l → filter P l = [].
Proof.
  induction 1 as [|x l Hx Hl IH]; [done|].
  by rewrite filter_cons_False.
Qed.

Lemma omap_lookup_seq_app {A} (l1 l : list A) :
  omap (fun i => (l1 ++ l) !! i) (seq (length l1) (length l)) = l.
Proof.
  revert l1. induction l as [|x l IH]; intros l1; [done|].
  simpl. rewrite list_lookup_middle by done.
  f_equal. specialize (IH (l1 ++ [x])). rewrite length_app in IH. simpl in IH.
  rewrite Nat.add_1_r, <- app_assoc in IH. exact IH.
Qed.

Lemma omap_lookup_seq {A} (l : list A) :
  omap (fun i => l !! i) (seq 0 (length l)) = l.
Proof. apply (omap_lookup_seq_app [] l). Qed.

Lemma omap_seq_id (n : nat) (l : list nat) :
  Forall (fun k => (k < n)%nat) l → omap (fun k => seq 0 n !! k) l = l.
Proof.
  induction 1 as [|k l Hk Hl IH]; [done|].
  csimpl. rewrite lookup_seq_lt by done. csimpl. by rewrite IH.
Qed.

Lemma NoDup_fmap_inj_on {A B} (f : A → B) (l : list A) (x y : A) :
  NoDup (f <$> l) → x ∈ l → y ∈ l → f x = f y → x = y.
Proof.
  induction l as [|z l IH]; simpl; intros Hnd Hx Hy Hf.
  - by apply not_elem_of_nil in Hx.
  - apply NoDup_cons in Hnd as [Hz Hnd].
    apply elem_of_cons in Hx as [->|Hx]; apply elem_of_cons in Hy as [->|Hy]; auto.
    + exfalso. apply Hz. rewrite Hf. apply list_elem_of_fmap. by exists y.
    + exfalso. apply Hz. rewrite <- Hf. apply list_elem_of_fmap. by exists x.
Qed.

Lemma valid_rows_dated (df : DataFrame) (t : string) :
  Forall (fun r => is_Some (creation_datetime r)) (group_of df t).
Proof.
  apply Forall_forall. intros r Hr. unfold group_of, valid_rows in Hr.
  apply list_elem_of_filter in Hr as [_ Hr]. apply list_elem_of_filter in Hr as [Hv _].
  unfold valid in Hv. apply andb_true_iff in Hv as [_ Hv].
  by apply bool_decide_eq_true in Hv.
Qed.

Lemma dated_timestamps (group : list Row) :
  Forall (fun r => is_Some (creation_datetime r)) group →
  creation_datetime <$> group = Some <$> timestamps group.
Proof.
  unfold timestamps, dropna. induction 1 as [|r g [z Hz] Hg IH]; [done|].
  cbn [fmap list_fmap omap list_omap]. rewrite Hz. simpl. by f_equal.
Qed.

Lemma timestamps_length (group : list Row) :
  Forall (fun r => is_Some (creation_datetime r)) group →
  length (timestamps group) = length group.
Proof.
  intros H. apply dated_timestamps in H.
  apply (f_equal length) in H. by rewrite !length_fmap in H.
Qed.

Lemma nargsort_dated argsort (keys : list Z) :
  argsort keys ≡ₚ seq 0 (length keys) →
  nargsort argsort (Some <$> keys) = argsort keys.
Proof.
  intros Hperm. unfold nargsort. rewrite length_fmap.
  assert (∀ i, i ∈ seq 0 (length keys) → is_Some (mjoin ((Some <$> keys) !! i))) as Hsome.
  { intros i Hi. apply elem_of_seq in Hi as [_ Hi]. simpl in Hi.
    destruct (lookup_lt_is_Some_2 keys i Hi) as [z Hz].
    rewrite list_lookup_fmap, Hz. simpl. eauto. }
  rewrite filter_Forall_id by (by apply Forall_forall).
  rewrite filter_Forall_nil.
  2:{ apply Forall_forall. intros i Hi Hnone. apply Hsome in Hi as [z Hz]. congruence. }
  rewrite app_nil_r.
  assert (dropna (Some <$> keys) = keys) as ->.
  { unfold dropna. clear. induction keys as [|z keys IH]; [done|]. simpl. by f_equal. }
  apply omap_seq_id. apply Forall_forall. intros k Hk.
  rewrite Hperm in Hk. apply elem_of_seq in Hk. lia.
Qed.

Lemma sort_values_dated argsort (group : list Row) :
  Forall (fun r => is_Some (creation_datetime r)) group →
  argsort (timestamps group) ≡ₚ seq 0 (length (timestamps group)) →
  sort_values argsort group = omap (fun i => group !! i) (argsort (timestamps group)).
Proof.
  intros Hd Hperm. unfold sort_values.
  by rewrite (dated_timestamps group Hd), nargsort_dated.
Qed.

Lemma omap_lookup_dated (group : list Row) (keys : list Z) (idx : list nat) :
  creation_datetime <$> group = Some <$> keys →
  creation_datetime <$> omap (fun i => group !! i) idx
  = Some <$> omap (fun i => keys !! i) idx.
Proof.
  intros Heq. induction idx as [|i idx IH]; [done|].
  pose proof (f_equal (fun l => l !! i) Heq) as Hi. simpl in Hi.
  rewrite !list_lookup_fmap in Hi. cbn [omap list_omap].
  destruct (group !! i) as [r|], (keys !! i) as [z|]; simpl in Hi; try discriminate.
  - injection Hi as Hi. cbn [fmap list_fmap]. rewrite Hi. by f_equal.
  - exact IH.
Qed.

Lemma StronglySorted_dated (rs : list Row) (zs : list Z) :
  creation_datetime <$> rs = Some <$> zs →
  StronglySorted Z.le zs → StronglySorted timestamp_le rs.
Proof.
  revert zs. induction rs as [|r rs IH]; intros zs Heq Hs; [constructor|].
  destruct zs as [|z zs]; [discriminate|]. injection Heq as Hr Heq.
  change (creation_datetime <$> rs = Some <$> zs) in Heq.
  apply StronglySorted_inv in Hs as [Hs Hall]. constructor; [by eapply IH|].
  apply Forall_forall. intros r' Hr'.
  assert (creation_datetime r' ∈ Some <$> zs) as Hin
    by (rewrite <- Heq; apply list_elem_of_fmap; by exists r').
  apply list_elem_of_fmap in Hin as (z' & Hz' & Hin).
  unfold timestamp_le. rewrite Hr, Hz'.
  rewrite Forall_forall in Hall. by apply Hall.
Qed.

(** Among the records of a group whose timestamps are pairwise distinct,
    the order of the timestamps is antisymmetric. *)
Lemma timestamp_le_antisym (group : list Row) (a b : Row) :
  Forall (fun r => is_Some (creation_datetime r)) group →
  NoDup (timestamps group) →
  a ∈ group → b ∈ group → timestamp_le a b → timestamp_le b a → a = b.
Proof.
  intros Hd Hnd Ha Hb Hab Hba.
  apply (NoDup_fmap_inj_on creation_datetime group); [|done|done|].
  - rewrite (dated_timestamps group Hd). by apply (NoDup_fmap_2 Some).
  - rewrite Forall_forall in Hd.
    destruct (Hd a Ha) as [x Hx], (Hd b Hb) as [y Hy].
    unfold timestamp_le in *. rewrite Hx, Hy in *. f_equal. lia.
Qed.

(** The cohort under an [argsort] that answers with sorted positions. *)
Lemma sort_values_sorted_perm (argsort : list Z → list nat) (group : list Row) :
  Forall (fun r => is_Some (creation_datetime r)) group →
  sorted_positions (timestamps group) (argsort (timestamps group)) →
  sort_values argsort group ≡ₚ group ∧
  StronglySorted timestamp_le (sort_values argsort group).
Proof.
  intros Hd [Hperm Hsorted].
  rewrite (sort_values_dated argsort group Hd Hperm). split.
  - rewrite Hperm, (timestamps_length group Hd). by rewrite omap_lookup_seq.
  - apply (StronglySorted_dated _
             (omap (fun i => timestamps group !! i) (argsort (timestamps group))));
      [|done].
    apply omap_lookup_dated. by apply dated_timestamps.
Qed.

(** With pairwise distinct timestamps there is one sorted arrangement. *)
Lemma sorted_arrangement_unique (group l1 l2 : list Row) :
  Forall (fun r => is_Some (creation_datetime r)) group →
  NoDup (timestamps group) →
  l1 ≡ₚ group → StronglySorted timestamp_le l1 →
  l2 ≡ₚ group → StronglySorted timestamp_le l2 →
  l1 = l2.
Proof.
  intros Hd Hnd Hp1 Hs1 Hp2 Hs2.
  apply (StronglySorted_unique_strong timestamp_le); [|done|done|by rewrite Hp1, Hp2].
  intros a b Ha Hb. apply (timestamp_le_antisym group); [done|done| |].
  - by rewrite <- Hp1.
  - by rewrite <- Hp2.
Qed.

(** C2 (as the code has it). When [argsort] answers with the positions of the
    cohort's timestamps in ascending order, the sorted cohort holds the
    records of the group, each once, in ascending order of timestamp; when
    the timestamps are pairwise distinct that order is the only one.
    Nothing is promised about the order of records with equal timestamps. *)
Theorem cohort_sorted_by_timestamp (argsort : list Z → list nat) (df : DataFrame)
    (t : string) :
  let group := group_of df t in
  sorted_positions (timestamps group) (argsort (timestamps group)) →
  let cohort := sort_values argsort group in
  cohort ≡ₚ group ∧
  length cohort = length group ∧
  StronglySorted timestamp_le cohort ∧
  (∀ i j a b, (i < j)%nat → cohort !! i = Some a → cohort !! j = Some b →
     ∃ x y, creation_datetime a = Some x ∧ creation_datetime b = Some y ∧ (x ≤ y)%Z) ∧
  (NoDup (timestamps group) →
     ∀ l, l ≡ₚ group → StronglySorted timestamp_le l → l = cohort).
Proof.
  intros group Hpos cohort.
  pose proof (valid_rows_dated df t) as Hd. fold group in Hd.
  destruct (sort_values_sorted_perm argsort group Hd Hpos) as [Hpg Hss].
  fold cohort in Hpg, Hss.
  split; [done|]. split; [by rewrite Hpg|]. split; [done|]. split.
  - intros i j a b Hij Hi Hj.
    pose proof (StronglySorted_lookup _ cohort i j a b Hss Hij Hi Hj) as Hle.
    rewrite Forall_forall in Hd.
    destruct (Hd a) as [x Hx]; [rewrite <- Hpg; by eapply list_elem_of_lookup_2|].
    destruct (Hd b) as [y Hy]; [rewrite <- Hpg; by eapply list_elem_of_lookup_2|].
    exists x, y. unfold timestamp_le in Hle. rewrite Hx, Hy in Hle. done.
  - intros Hnd l Hl Hls. by apply (sorted_arrangement_unique group).
Qed.

(** The contract of [argsort] holds for numpy's quicksort on anna's four
    timestamps and on the eighteen equal ones. *)
Lemma cohort_sorted_demo :
  let anna := group_of df_demo "anna.weber@example.org" in
  let tina := group_of df_ties "tina" in
  (creation_datetime <$> sort_values Np.argsort anna
     = [Some 10%Z; Some 20%Z; Some 30%Z; Some 40%Z] ∧
   sort_values Np.argsort anna ≡ₚ anna ∧
   StronglySorted timestamp_le (sort_values Np.argsort anna)) ∧
  (sort_values Np.argsort tina ≡ₚ tina ∧
   StronglySorted timestamp_le (sort_values Np.argsort tina)).
Proof.
  intros anna tina. split.
  - split; [vm_compute; reflexivity|].
    assert (sorted_positions (timestamps anna) (Np.argsort (timestamps anna))) as Hpos.
    { split; apply (bool_decide_unpack _); vm_compute; exact I. }
    destruct (cohort_sorted_by_timestamp Np.argsort df_demo "anna.weber@example.org" Hpos)
      as (Hp & _ & Hs & _).
    split; [exact Hp | exact Hs].
  - assert (sorted_positions (timestamps tina) (Np.argsort (timestamps tina))) as Hpos.
    { split; apply (bool_decide_unpack _); vm_compute; exact I. }
    destruct (cohort_sorted_by_timestamp Np.argsort df_ties "tina" Hpos)
      as (Hp & _ & Hs & _).
    split; [exact Hp | exact Hs].
Defined.

(** Eighteen records with one and the same timestamp do not keep their input
    order: numpy's quicksort hands back R0016 ... R0002 in reverse between
    R0001 and R0017.  The early half then holds seven of the records rated
    5, and the trainer, whose improvement in input order is +4, is reported
    with a negative one. *)
Lemma cohort_ties_reordered :
  let group := group_of df_ties "tina" in
  creation_datetime <$> group = replicate 18 (Some 0%Z) ∧
  row_id <$> group
    = (fun i => "R" +:+ Py.format_04d i) <$> seq 1 18 ∧
  row_id <$> sort_values Np.argsort group
    = [ "R0001"; "R0016"; "R0015"; "R0014"; "R0013"; "R0012"; "R0011"; "R0010"; "R0009";
        "R0008"; "R0007"; "R0006"; "R0005"; "R0004"; "R0003"; "R0002"; "R0017"; "R0018" ] ∧
  group_df <$> trainer_stats Np.argsort df_ties = [sort_values Np.argsort group] ∧
  (mean (half_scores (late_half group)) - mean (half_scores (early_half group)) == 4)%Q ∧
  Qred <$> (improvement <$> trainer_stats Np.argsort df_ties) = [(-20 # 9)%Q].
Proof.
  intros group. repeat split; vm_compute; reflexivity.
Qed.

(** ** The pipeline depends on [argsort] through the cohorts only *)

Lemma trainer_stat_ext a1 a2 t group :
  sort_values a1 group = sort_values a2 group →
  trainer_stat a1 t group = trainer_stat a2 t group.
Proof. intros H. unfold trainer_stat. by rewrite H. Qed.

Lemma trainer_stats_ext a1 a2 df :
  (∀ t, t ∈ group_keys (valid_rows df) →
        sort_values a1 (group_of df t) = sort_values a2 (group_of df t)) →
  trainer_stats a1 df = trainer_stats a2 df.
Proof.
  intros H. unfold trainer_stats, groupby_Trainer.
  induction (group_keys (valid_rows df)) as [|t ks IH]; [done|].
  csimpl. fold (group_of df t).
  rewrite (trainer_stat_ext a1 a2 t (group_of df t) (H t ltac:(left))).
  rewrite IH; [done|]. intros t' Ht'. apply H. by right.
Qed.

Lemma main_ext a1 a2 df :
  (∀ t, t ∈ group_keys (valid_rows df) →
        sort_values a1 (group_of df t) = sort_values a2 (group_of df t)) →
  main a1 df = main a2 df.
Proof.
  intros H. unfold main, top_2, ranked_stats. by rewrite (trainer_stats_ext a1 a2 df H).
Qed.

(** ** Quote selection *)

(** C10. Quotes are not deduplicated by record.  In anna's frame her first
    record has a qualifying text in each of the two text columns; both are
    retained, so the two quotes of the ranked trainer carry the same
    [row_id] and different source columns.  This holds for every [argsort]
    that sorts her four timestamps. *)
Theorem quotes_from_one_record (argsort : list Z → list nat) :
  let group := group_of df_anna "anna.weber@example.org" in
  sorted_positions (timestamps group) (argsort (timestamps group)) →
  ∃ r q1 q2,
    main argsort df_anna = [r] ∧ quotes r = [q1; q2] ∧
    q_row_id q1 = "R0001" ∧ q_row_id q2 = "R0001" ∧
    q_source_column q1 = col_more ∧ q_source_column q2 = col_like ∧
    q_source_column q1 ≠ q_source_column q2.
Proof.
  intros group Hpos.
  assert (main argsort df_anna = main Np.argsort df_anna) as ->.
  { apply main_ext. intros t Ht.
    replace (group_keys (valid_rows df_anna)) with ["anna.weber@example.org"] in Ht
      by (vm_compute; reflexivity).
    apply list_elem_of_singleton in Ht as ->. fold group.
    pose proof (valid_rows_dated df_anna "anna.weber@example.org") as Hd. fold group in Hd.
    assert (sorted_positions (timestamps group) (Np.argsort (timestamps group))) as Hnp.
    { split; apply (bool_decide_unpack _); vm_compute; exact I. }
    assert (NoDup (timestamps group)) as Hnd
      by (apply (bool_decide_unpack _); vm_compute; exact I).
    destruct (sort_values_sorted_perm argsort group Hd Hpos) as [Hp1 Hs1].
    destruct (sort_values_sorted_perm Np.argsort group Hd Hnp) as [Hp2 Hs2].
    by apply (sorted_arrangement_unique group). }
  eexists _, _, _. split; [vm_compute; reflexivity|].
  repeat split; try reflexivity. discriminate.
Qed.

(** numpy's quicksort sorts anna's timestamps, and the two quotes of her
    result come from record R0001. *)
Lemma quotes_from_one_record_numpy :
  ∃ r q1 q2,
    main Np.argsort df_anna = [r] ∧ quotes r = [q1; q2] ∧
    q_row_id q1 = "R0001" ∧ q_row_id q2 = "R0001" ∧
    q_source_column q1 = col_more ∧ q_source_column q2 = col_like ∧
    q_source_column q1 ≠ q_source_column q2.
Proof.
  apply (quotes_from_one_record Np.argsort).
  split; apply (bool_decide_unpack _); vm_compute; exact I.
Defined.

(** ** Exclusion on the sample frame *)

(** bob has two valid records, dora's early half has no score: neither is in
    the statistics nor in the output. *)
Lemma excluded_trainers_demo :
  (length (group_of df_demo "bob") = 2%nat ∧
   ("bob" ∉ trainer <$> trainer_stats Np.argsort df_demo) ∧
   ("bob" ∉ trainer_name <$> main Np.argsort df_demo)) ∧
  (length (group_of df_demo "dora") = 3%nat ∧
   half_scores (early_half (sort_values Np.argsort (group_of df_demo "dora"))) = [] ∧
   ("dora" ∉ trainer <$> trainer_stats Np.argsort df_demo) ∧
   ("dora" ∉ trainer_name <$> main Np.argsort df_demo)).
Proof.
  split.
  - split; [vm_compute; reflexivity|].
    apply (excluded_trainers Np.argsort df_demo "bob").
    left. vm_compute. lia.
  - split; [vm_compute; reflexivity|]. split; [vm_compute; reflexivity|].
    apply (excluded_trainers Np.argsort df_demo "dora").
    right. left. vm_compute. reflexivity.
Defined.

(** ** Outreach *)

(** C1 (the code departs from it). [generate_email] subscripts the quotes
    with 0 without a test, so it ends with [IndexError] exactly when the
    ranked record has no quote; carl, ranked second on the sample frame, has
    none, and the whole outreach run fails on his record. *)
Theorem generate_email_needs_a_quote :
  (∀ now td, Outreach.generate_email now td = inl Outreach.IndexError ↔ quotes td = []) ∧
  (∃ r, main Np.argsort df_demo !! 1%nat = Some r ∧
        trainer_name r = "carl_m@example.org" ∧ quotes r = [] ∧
        ∀ now, Outreach.generate_email now r = inl Outreach.IndexError) ∧
  (∀ clock, Outreach.main clock (main Np.argsort df_demo) = inl Outreach.IndexError).
Proof.
  split; [|split].
  - intros now td. unfold Outreach.generate_email, Outreach.getitem.
    destruct (quotes td) as [|q qs]; simpl; split; auto; discriminate.
  - eexists. split; [vm_compute; reflexivity|]. repeat split.
  - intros clock. unfold Outreach.main.
    replace (main Np.argsort df_demo) with
      (let out := main Np.argsort df_demo in out) by reflexivity.
    vm_compute main. reflexivity.
Qed.

(** ** The theorems on the sample frame *)



(** One improvement in each bucket. *)
Lemma narrative_bucket_demo :
  case_study 2 = exceptional_growth ∧
  case_study (3 # 4) = strong_improvement ∧
  case_study (1 # 4) = steady_upward_trajectory ∧
  case_study (-20 # 9) = maintained_high_standards.
Proof.
  destruct narrative_bucket as (Hstep & _).
  split; [|split; [|split]].
  - apply (Hstep 2%Q). reflexivity.
  - apply (Hstep (3 # 4)%Q); [reflexivity | discriminate].
  - apply (Hstep (1 # 4)%Q); [reflexivity | discriminate].
  - apply (Hstep (-20 # 9)%Q). discriminate.
Defined.

(** A text that holds "enjoyed" inside a longer word, in capitals, yields a
    quote: the trimmed text, with the number of its row and its column. *)
Lemma quote_qualification_demo :
  mkQuote "R0001" "We all ENJOYEDLY took part in it" col_like
  ∈ extract_positive_quotes
      (one_cell col_like (Some "   We all ENJOYEDLY took part in it   ")) [col_like].
Proof.
  destruct quote_qualification as (Hiff & _).
  apply Hiff.
  eexists col_like, _, "   We all ENJOYEDLY took part in it   ".
  split; [left|]. split; [left|]. split; [left|].
  split; [vm_compute; reflexivity|]. split; [|vm_compute; reflexivity].
  eexists. split; [vm_compute; reflexivity|].
  split; [discriminate|]. split; [discriminate|]. split; [discriminate|].
  split; [vm_compute; lia|].
  exists "enjoyed", "we all ", "ly took part in it".
  split; [|vm_compute; reflexivity].
  apply (bool_decide_unpack _). vm_compute. exact I.
Defined.

(** ** numpy's quicksort on short arrays

    An array of at most 16 keys never reaches the partition loop: it is
    sorted by the insertion sort alone, which is stable. *)

Lemma insert_from_right_length keys i racc :
  length (insert_from_right keys i racc) = S (length racc).
Proof.
  induction racc as [|j racc IH]; simpl; [done|].
  destruct (Np.less _ _); simpl; by rewrite ?IH.
Qed.

Lemma insert_from_right_Permutation keys i racc :
  insert_from_right keys i racc ≡ₚ i :: racc.
Proof.
  induction racc as [|j racc IH]; simpl; [done|].
  destruct (Np.less _ _); [|done]. rewrite IH. apply perm_swap.
Qed.

Lemma key_at_middle keys (l1 l2 : list nat) (j : nat) :
  Np.key_at keys (l1 ++ j :: l2) (length l1) = Np.key_of keys j.
Proof. unfold Np.key_at, Np.at_, Np.key_of. by rewrite list_lookup_middle. Qed.

Lemma at_middle (l1 l2 : list nat) (j : nat) : Np.at_ (l1 ++ j :: l2) (length l1) = j.
Proof. unfold Np.at_. by rewrite list_lookup_middle. Qed.

Lemma insert_middle {A} (l1 l2 : list A) (x y : A) :
  <[length l1 := y]> (l1 ++ x :: l2) = l1 ++ y :: l2.
Proof. by rewrite insert_app_r_alt, Nat.sub_diag by lia. Qed.

(** The inner loop moves the hole at [length racc] to the left past the
    positions of larger key; writing [vi] into it inserts [vi]. *)
Lemma shift_right_insert keys (vi : nat) (racc post : list nat) (h fuel : nat) :
  (length racc ≤ fuel)%nat →
  let '(tosort, pj) :=
    Np.shift_right keys (reverse racc ++ h :: post) 0 (Np.key_of keys vi) (length racc) fuel in
  <[pj := vi]> tosort = reverse (insert_from_right keys vi racc) ++ post.
Proof.
  revert post h fuel. induction racc as [|j racc IH]; intros post h fuel Hfuel.
  - destruct fuel; simpl; done.
  - destruct fuel as [|fuel]; [simpl in Hfuel; lia|].
    cbn [Np.shift_right length insert_from_right].
    rewrite reverse_cons, <- app_assoc. cbn [app].
    assert (S (length racc) - 1 = length (reverse racc))%nat as Hpos
      by (rewrite length_reverse; lia).
    rewrite Hpos, key_at_middle, at_middle.
    destruct (Np.less (Np.key_of keys vi) (Np.key_of keys j)) eqn:Hless; cbn [andb Nat.ltb Nat.leb].
    + replace (S (length racc)) with (length (reverse racc ++ [j]))
        by (rewrite length_app, length_reverse; simpl; lia).
      change (reverse racc ++ j :: h :: post) with (reverse racc ++ [j] ++ h :: post).
      rewrite (app_assoc (reverse racc) [j] (h :: post)), insert_middle, <- app_assoc.
      cbn [app]. rewrite length_reverse.
      specialize (IH (j :: post) j fuel ltac:(simpl in Hfuel; lia)).
      destruct (Np.shift_right keys (reverse racc ++ j :: j :: post) 0
                  (Np.key_of keys vi) (length racc) fuel) as [tosort pj].
      rewrite IH, reverse_cons, <- app_assoc. done.
    + replace (S (length racc)) with (length (reverse racc ++ [j]))
        by (rewrite length_app, length_reverse; simpl; lia).
      change (reverse racc ++ j :: h :: post) with (reverse racc ++ [j] ++ h :: post).
      rewrite (app_assoc (reverse racc) [j] (h :: post)), insert_middle.
      rewrite !reverse_cons, <- !app_assoc. done.
Qed.

Lemma insert_at_insert keys (racc post : list nat) (vi : nat) :
  Np.insert_at keys (reverse racc ++ vi :: post) 0 (length racc)
  = reverse (insert_from_right keys vi racc) ++ post.
Proof.
  unfold Np.insert_at.
  replace (Np.at_ (reverse racc ++ vi :: post) (length racc)) with vi
    by (rewrite <- (length_reverse racc), at_middle; done).
  pose proof (shift_right_insert keys vi racc post vi
                (length (reverse racc ++ vi :: post))) as H.
  destruct (Np.shift_right _ _ _ _ _ _) as [tosort pj].
  apply H. rewrite length_app, length_reverse. lia.
Qed.

Lemma insertion_sort_fold keys (racc post : list nat) :
  foldl (fun t pi => Np.insert_at keys t 0 pi) (reverse racc ++ post)
        (seq (length racc) (length post))
  = reverse (foldl (fun r x => insert_from_right keys x r) racc post).
Proof.
  revert racc. induction post as [|x post IH]; intros racc.
  - simpl. by rewrite app_nil_r.
  - cbn [length seq foldl]. rewrite insert_at_insert.
    rewrite <- (insert_from_right_length keys x racc). apply IH.
Qed.

Lemma argsort_short (keys : list Z) :
  (length keys ≤ 16)%nat →
  Np.argsort keys
  = reverse (foldl (fun r x => insert_from_right keys x r) [] (seq 0 (length keys))).
Proof.
  intros Hlen. unfold Np.argsort.
  destruct (Nat.eqb_spec (length keys) 0) as [->|Hne]; [done|].
  destruct (length keys) as [|n] eqn:Hn; [done|].
  cbn [Np.sort_loop].
  assert (0 ≤ Z.of_nat (Np.npy_get_msb (S n)) * 2)%Z as Hdepth by lia.
  destruct (Z.ltb_spec (Z.of_nat (Np.npy_get_msb (S n)) * 2) 0) as [|_]; [lia|].
  assert (Np.quick_loop keys (seq 0 (S n)) 0 (S n - 1) []
            (Z.of_nat (Np.npy_get_msb (S n)) * 2) (length (seq 0 (S n)))
          = (seq 0 (S n), 0%nat, (S n - 1)%nat, [])) as ->.
  { rewrite length_seq. cbn [Np.quick_loop].
    destruct (Nat.ltb_spec Np.SMALL_QUICKSORT (S n - 1 - 0)) as [H|_]; [|done].
    unfold Np.SMALL_QUICKSORT in H. lia. }
  unfold Np.insertion_sort.
  replace (S n - 1 - 0)%nat with n by lia.
  change (seq 0 (S n)) with (reverse [0%nat] ++ seq 1 n).
  replace (seq (0 + 1) n) with (seq (length [0%nat]) (length (seq 1 n)))
    by (by rewrite length_seq).
  by rewrite insertion_sort_fold.
Qed.

Lemma stable_lt_trans keys : Transitive (stable_lt keys).
Proof. intros i j k [?|[? ?]] [?|[? ?]]; unfold stable_lt; lia. Qed.

Lemma insert_from_right_sorted keys (x : nat) (racc : list nat) :
  Forall (fun j => (j < x)%nat) racc →
  StronglySorted (flip (stable_lt keys)) racc →
  StronglySorted (flip (stable_lt keys)) (insert_from_right keys x racc).
Proof.
  intros Hlt Hs. induction Hs as [|j racc Hs IH Hall]; simpl.
  - repeat constructor.
  - apply Forall_cons in Hlt as [Hj Hlt].
    unfold Np.less. destruct (Z.ltb_spec (Np.key_of keys x) (Np.key_of keys j)) as [Hk|Hk].
    + constructor; [by apply IH|].
      rewrite insert_from_right_Permutation. constructor; [|done].
      by left.
    + constructor; [by constructor|].
      assert (stable_lt keys j x) as Hjx by (unfold stable_lt; lia).
      constructor; [done|].
      eapply Forall_impl; [exact Hall|]. intros z Hz. unfold flip in *.
      by apply (stable_lt_trans keys z j x).
Qed.

Lemma insertion_fold_sorted keys (racc : list nat) (k m : nat) :
  Forall (fun j => (j < k)%nat) racc →
  StronglySorted (flip (stable_lt keys)) racc →
  let r := foldl (fun r x => insert_from_right keys x r) racc (seq k m) in
  StronglySorted (flip (stable_lt keys)) r ∧ r ≡ₚ seq k m ++ racc.
Proof.
  revert racc k. induction m as [|m IH]; intros racc k Hlt Hs; [done|].
  cbn [seq foldl].
  destruct (IH (insert_from_right keys k racc) (S k)) as [Hs' Hp'].
  - rewrite insert_from_right_Permutation. constructor; [lia|].
    eapply Forall_impl; [exact Hlt|]. simpl. lia.
  - by apply insert_from_right_sorted.
  - split; [exact Hs'|]. rewrite Hp', insert_from_right_Permutation.
    simpl. by rewrite Permutation_middle.
Qed.

(** On at most 16 keys numpy's quicksort is the stable sort. *)
Lemma argsort_short_stable (keys : list Z) :
  (length keys ≤ 16)%nat →
  Np.argsort keys ≡ₚ seq 0 (length keys) ∧
  StronglySorted (stable_lt keys) (Np.argsort keys).
Proof.
  intros Hlen. rewrite (argsort_short keys Hlen).
  destruct (insertion_fold_sorted keys [] 0 (length keys)) as [Hs Hp];
    [constructor | constructor |].
  split.
  - by rewrite reverse_Permutation, Hp, app_nil_r.
  - apply StronglySorted_Sorted, Sorted_reverse in Hs.
    apply (@Sorted_StronglySorted _ _ (stable_lt_trans keys)). exact Hs.
Qed.

Lemma omap_lookup_valid {A} (l : list A) (idx : list nat) (p i : nat) :
  Forall (fun k => (k < length l)%nat) idx →
  idx !! p = Some i → omap (fun k => l !! k) idx !! p = l !! i.
Proof.
  intros Hall. revert p. induction Hall as [|k idx Hk Hall IH]; intros p Hp.
  - by rewrite lookup_nil in Hp.
  - destruct (lookup_lt_is_Some_2 l k Hk) as [x Hx].
    csimpl. rewrite Hx. csimpl. destruct p as [|p]; simpl in *.
    + injection Hp as <-. done.
    + by apply IH.
Qed.

Lemma omap_keys_of (keys : list Z) (idx : list nat) :
  Forall (fun k => (k < length keys)%nat) idx →
  omap (fun k => keys !! k) idx = Np.key_of keys <$> idx.
Proof.
  induction 1 as [|k idx Hk Hall IH]; [done|].
  destruct (lookup_lt_is_Some_2 keys k Hk) as [x Hx].
  csimpl. unfold Np.key_of at 1. rewrite Hx. csimpl. by rewrite IH.
Qed.

Lemma argsort_short_positions (keys : list Z) :
  (length keys ≤ 16)%nat → sorted_positions keys (Np.argsort keys).
Proof.
  intros Hlen. destruct (argsort_short_stable keys Hlen) as [Hp Hs].
  split; [done|]. rewrite omap_keys_of.
  - eapply StronglySorted_fmap; [|exact Hs].
    intros i j [?|[? ?]]; lia.
  - apply Forall_forall. intros k Hk. rewrite Hp in Hk. apply elem_of_seq in Hk. lia.
Qed.

(** A cohort of at most 16 records keeps the input order of records with
    equal timestamps. *)
Lemma sort_values_short_stable (group : list Row) (i j : nat) (a b : Row) :
  Forall (fun r => is_Some (creation_datetime r)) group →
  (length group ≤ 16)%nat →
  (i < j)%nat → group !! i = Some a → group !! j = Some b →
  creation_datetime a = creation_datetime b →
  ∃ i' j', (i' < j')%nat ∧
           sort_values Np.argsort group !! i' = Some a ∧
           sort_values Np.argsort group !! j' = Some b.
Proof.
  intros Hd Hlen Hij Hi Hj Hts.
  pose proof (timestamps_length group Hd) as Hn.
  destruct (argsort_short_stable (timestamps group)) as [Hp Hs]; [lia|].
  rewrite (sort_values_dated Np.argsort group Hd Hp).
  set (idx := Np.argsort (timestamps group)) in *.
  assert (Forall (fun k => (k < length group)%nat) idx) as Hvalid.
  { apply Forall_forall. intros k Hk. rewrite Hp in Hk. apply elem_of_seq in Hk. lia. }
  assert (i ∈ idx) as [pi Hpi]%list_elem_of_lookup_1.
  { rewrite Hp. apply elem_of_seq. apply lookup_lt_Some in Hi. lia. }
  assert (j ∈ idx) as [pj Hpj]%list_elem_of_lookup_1.
  { rewrite Hp. apply elem_of_seq. apply lookup_lt_Some in Hj. lia. }
  assert (Np.key_of (timestamps group) i = Np.key_of (timestamps group) j) as Hkeys.
  { pose proof (dated_timestamps group Hd) as Heq.
    pose proof (f_equal (fun l => l !! i) Heq) as Ei.
    pose proof (f_equal (fun l => l !! j) Heq) as Ej. simpl in Ei, Ej.
    rewrite !list_lookup_fmap, Hi in Ei. rewrite !list_lookup_fmap, Hj in Ej.
    unfold Np.key_of.
    destruct (timestamps group !! i) as [x|], (timestamps group !! j) as [y|];
      simpl in *; congruence. }
  exists pi, pj. split.
  - destruct (Nat.lt_trichotomy pi pj) as [?|[->|Hgt]]; [done| |].
    + rewrite Hpi in Hpj. injection Hpj as ->. lia.
    + pose proof (StronglySorted_lookup _ idx pj pi j i Hs Hgt Hpj Hpi) as [?|[_ ?]]; lia.
  - rewrite (omap_lookup_valid group idx pi i Hvalid Hpi).
    rewrite (omap_lookup_valid group idx pj j Hvalid Hpj). done.
Qed.

(** * Further properties of the code *)

(** ** Stability of Python's sort with [reverse=True] *)

Section SortReverseStable.
Context {A K : Type} (ltb : K → K → bool) (key : A → K) (S : A → A → Prop).
Hypothesis ltb_asym : ∀ a b, ltb a b = true → ltb b a = false.
Hypothesis geb_trans : ∀ a b c, ltb a b = false → ltb b c = false → ltb a c = false.



End SortReverseStable.

(** ** Ranking ties *)



Lemma StronglySorted_strict {A} (R : relation A) (l : list A) :
  StronglySorted R l → NoDup l → StronglySorted (fun a b => R a b ∧ a ≠ b) l.
Proof.
  induction 1 as [|x l Hs IH Hall]; intros Hnd; [constructor|].
  apply NoDup_cons in Hnd as [Hx Hnd]. constructor; [by apply IH|].
  rewrite Forall_forall in Hall. apply Forall_forall. intros y Hy.
  split; [by apply Hall | by intros ->].
Qed.

Lemma group_keys_increasing (rs : list Row) : StronglySorted name_lt (group_keys rs).
Proof.
  apply (StronglySorted_strict String.le); [|apply NoDup_group_keys].
  unfold group_keys. apply StronglySorted_merge_sort; apply _.
Qed.

Lemma trainer_stat_trainer argsort t g st :
  trainer_stat argsort t g = Some st → trainer st = t.
Proof. intros H. by apply trainer_stat_Some in H as (_ & _ & _ & ->). Qed.

Lemma trainer_stats_increasing argsort df :
  StronglySorted (fun a b => name_lt (trainer a) (trainer b)) (trainer_stats argsort df).
Proof.
  unfold trainer_stats, groupby_Trainer.
  pose proof (group_keys_increasing (valid_rows df)) as Hs.
  induction Hs as [|t ks Hs IH Hall]; [constructor|].
  csimpl. destruct (trainer_stat argsort t _) as [st|] eqn:E; [|exact IH].
  constructor; [exact IH|].
  apply Forall_forall. intros st' Hst'.
  apply list_elem_of_omap in Hst' as ([t' g'] & Hin & Hst').
  apply list_elem_of_fmap in Hin as (t'' & [= -> ->] & Hin).
  simpl in Hst'. rewrite (trainer_stat_trainer _ _ _ _ E), (trainer_stat_trainer _ _ _ _ Hst').
  rewrite Forall_forall in Hall. by apply Hall.
Qed.



(** ** Where rows and quotes come from *)

Lemma elem_of_sort_values argsort (group : list Row) (r : Row) :
  r ∈ sort_values argsort group → r ∈ group.
Proof.
  unfold sort_values. intros (i & _ & Hi)%list_elem_of_omap.
  by eapply list_elem_of_lookup_2.
Qed.

Lemma elem_of_assign_row_ids (rs : list Row) (r : Row) :
  r ∈ assign_row_ids rs ↔
  ∃ k orig, rs !! k = Some orig ∧ r = with_row_id ("R" +:+ Py.format_04d (S k)) orig.
Proof.
  unfold assign_row_ids. rewrite list_elem_of_lookup. split.
  - intros [k Hk]. rewrite list_lookup_imap in Hk.
    destruct (rs !! k) as [orig|] eqn:E; [|discriminate].
    injection Hk as <-. by exists k, orig.
  - intros (k & orig & Hk & ->). exists k. by rewrite list_lookup_imap, Hk.
Qed.

Lemma elem_of_text_cols_of (cols : list string) (col : string) :
  col ∈ text_cols_of cols ↔
  col ∈ cols ∧ (Py.contains col "3.12" = true ∨ Py.contains col "3.13" = true).
Proof.
  unfold text_cols_of. rewrite list_elem_of_filter.
  rewrite <- orb_true_iff. split; intros [H ?]; split; auto.
  by apply Is_true_true_1.
Qed.

Lemma elem_of_select_quotes (df : DataFrame) (group : list Row) (q : Quote) :
  q ∈ select_quotes df group →
  q ∈ extract_positive_quotes (mkDataFrame (columns df) group) (text_cols_of (columns df)).
Proof.
  unfold select_quotes. intros Hq. apply elem_of_take in Hq as (i & Hi & _).
  rewrite <- (sort_reverse_Permutation Nat.ltb (fun q => Py.len (q_quote q))).
  by eapply list_elem_of_lookup_2.
Qed.

Lemma elem_of_main argsort df (r : Result) :
  r ∈ main argsort df →
  ∃ i st, (i < 2)%nat ∧ ranked_stats argsort df !! i = Some st ∧
          st ∈ trainer_stats argsort df ∧ r = build_result df (S i) st.
Proof.
  intros [i Hi]%list_elem_of_lookup_1. unfold main, top_2 in Hi.
  rewrite list_lookup_imap in Hi.
  destruct (take 2 (ranked_stats argsort df) !! i) as [st|] eqn:E; [|discriminate].
  injection Hi as <-. apply lookup_take_Some in E as [E ?].
  exists i, st. repeat split; [done|done|].
  rewrite <- (ranked_stats_Permutation argsort df). by eapply list_elem_of_lookup_2.
Qed.

Lemma elem_of_trainer_stats_group argsort df (st : TrainerStat) :
  st ∈ trainer_stats argsort df →
  trainer_stat argsort (trainer st) (group_of df (trainer st)) = Some st.
Proof.
  intros (t & _ & Hst)%elem_of_trainer_stats.
  by rewrite (trainer_stat_trainer _ _ _ _ Hst).
Qed.

(** X2. Every entry of the output stands for a trainer with at least 3
    valid records, reports exactly the number of that trainer's valid
    records, carries at most 2 quotes and has rank 1 or 2; no trainer
    appears twice, and there are at most 2 entries. *)
Theorem output_invariants (argsort : list Z → list nat) (df : DataFrame) :
  Forall (fun r =>
            (3 ≤ r_n_responses r)%nat ∧
            r_n_responses r = length (group_of df (trainer_name r)) ∧
            (length (quotes r) ≤ 2)%nat ∧
            (rank r = 1%nat ∨ rank r = 2%nat))
         (main argsort df) ∧
  NoDup (trainer_name <$> main argsort df) ∧
  (length (main argsort df) ≤ 2)%nat.
Proof.
  split; [|split].
  - apply Forall_forall. intros r (i & st & Hi & _ & Hst & ->)%elem_of_main.
    apply elem_of_trainer_stats_group in Hst.
    apply trainer_stat_Some in Hst as (Hlen & _ & _ & Hst).
    rewrite Hst. cbn [build_result r_n_responses trainer_name quotes rank n_responses trainer].
    repeat split; [done| |lia].
    unfold select_quotes. rewrite length_take. lia.
  - unfold main, top_2.
    assert (trainer_name <$> imap (fun i st => build_result df (S i) st)
                               (take 2 (ranked_stats argsort df))
            = take 2 (trainer <$> ranked_stats argsort df)) as ->.
    { rewrite <- fmap_take, fmap_imap, <- imap_const. by apply imap_ext. }
    apply (sublist_NoDup _ (trainer <$> ranked_stats argsort df)); [|apply sublist_take].
    rewrite (ranked_stats_Permutation argsort df).
    pose proof (trainer_stats_increasing argsort df) as Hs.
    induction Hs as [|st l Hs IH Hall]; [constructor|].
    csimpl. constructor; [|exact IH].
    intros (st' & Heq & Hin)%list_elem_of_fmap.
    rewrite Forall_forall in Hall. destruct (Hall st' Hin) as [_ Hne]. congruence.
  - unfold main, top_2. rewrite length_imap, length_take. lia.
Qed.

(** X3. Every quote of an output entry was read from a record of that
    trainer: its [row_id] is the number of a row of the input file that
    names the trainer, its source is a column of the frame whose name
    contains 3.12 or 3.13, and its text is the trimmed cell of that row and
    column, cut to 200 characters. *)
Theorem quote_provenance (argsort : list Z → list nat) (df : DataFrame)
    (r : Result) (q : Quote) :
  r ∈ main argsort df → q ∈ quotes r →
  ∃ k orig text,
    rows df !! k = Some orig ∧
    Trainer orig = Some (trainer_name r) ∧
    q_row_id q = "R" +:+ Py.format_04d (S k) ∧
    q_source_column q ∈ columns df ∧
    (Py.contains (q_source_column q) "3.12" = true ∨
     Py.contains (q_source_column q) "3.13" = true) ∧
    cells orig !! q_source_column q = Some text ∧
    q_quote q = limit_quote (Py.strip text).
Proof.
  intros (i & st & _ & _ & Hst & ->)%elem_of_main Hq.
  cbn [build_result quotes trainer_name] in *.
  apply elem_of_select_quotes, elem_of_extract_positive_quotes in Hq
    as (col & row & Hcol & _ & Hrow & Hq).
  apply elem_of_text_cols_of in Hcol as [Hcol Hname]. cbn [rows] in Hrow.
  apply elem_of_trainer_stats_group in Hst.
  apply trainer_stat_Some in Hst as (_ & _ & _ & Hst).
  rewrite Hst in Hrow. cbn [group_df] in Hrow.
  apply elem_of_sort_values in Hrow. unfold group_of, valid_rows in Hrow.
  apply list_elem_of_filter in Hrow as [Ht Hrow].
  apply list_elem_of_filter in Hrow as [_ Hrow].
  apply elem_of_assign_row_ids in Hrow as (k & orig & Hk & ->).
  cbn [with_row_id Trainer row_id cells] in *.
  apply quote_of_cell_Some in Hq as (text & Htext & _ & _ & _ & _ & _ & ->).
  exists k, orig, text. cbn [q_row_id q_source_column q_quote]. repeat split; auto.
Qed.

(** ** Length and choice of quotes *)

(** X4. A quote has between 20 and 200 characters, or exactly 203: a cut
    text is 200 characters and the three dots. *)
Theorem quote_length_range (rid col : string) (text : option string) (q : Quote) :
  quote_of_cell rid col text = Some q →
  (20 ≤ Py.len (q_quote q) ≤ 200)%nat ∨ Py.len (q_quote q) = 203%nat.
Proof.
  intros (t & _ & _ & _ & _ & Hlen & _ & ->)%quote_of_cell_Some.
  cbn [q_quote]. unfold limit_quote.
  destruct (Nat.ltb_spec 200 (Py.len (Py.strip t))) as [Hlong|Hshort].
  - right. rewrite append_len, slice_to_len. vm_compute (Py.len "..."). lia.
  - left. lia.
Qed.

Lemma quote_length_range_demo :
  (∃ q, quote_of_cell "R0001" col_like (Some (sample_text 400)) = Some q ∧
        Py.len (q_quote q) = 203%nat) ∧
  (∃ q, quote_of_cell "R0001" col_like (Some (sample_text 14)) = Some q ∧
        Py.len (q_quote q) = 20%nat).
Proof.
  split.
  - eexists. split; [vm_compute; reflexivity|].
    destruct (quote_length_range "R0001" col_like (Some (sample_text 400)) _ eq_refl)
      as [[_ H]|H]; [vm_compute in H; lia | exact H].
  - eexists. split; [vm_compute; reflexivity|].
    destruct (quote_length_range "R0001" col_like (Some (sample_text 14)) _ eq_refl)
      as [[H _]|H]; [|vm_compute in H; lia].
    vm_compute. reflexivity.
Defined.

Lemma sort_reverse_len_sorted (l : list Quote) :
  StronglySorted (fun a b => (Py.len (q_quote b) ≤ Py.len (q_quote a))%nat)
                 (Py.sort_reverse Nat.ltb (fun q => Py.len (q_quote q)) l).
Proof.
  apply (sort_reverse_sorted Nat.ltb (fun q => Py.len (q_quote q)) Nat.le).
  - intros a b c. lia.
  - intros a b H%Nat.ltb_lt. lia.
  - intros a b H%Nat.ltb_ge. lia.
Qed.

(** X5. The quotes kept for a trainer are the longest ones extracted from
    its records: the extracted quotes split into the (at most two) kept
    ones and the rest, no quote of the rest is longer than a kept one, the
    kept ones are in order of non-increasing length, and none is kept only
    when none was extracted. *)
Theorem select_quotes_longest (df : DataFrame) (group : list Row) :
  let all_quotes :=
    extract_positive_quotes (mkDataFrame (columns df) group) (text_cols_of (columns df)) in
  let kept := select_quotes df group in
  ∃ rest,
    kept ++ rest ≡ₚ all_quotes ∧
    length kept = Nat.min 2 (length all_quotes) ∧
    (∀ q q', q ∈ kept → q' ∈ rest → (Py.len (q_quote q') ≤ Py.len (q_quote q))%nat) ∧
    StronglySorted (fun a b => (Py.len (q_quote b) ≤ Py.len (q_quote a))%nat) kept ∧
    (kept = [] ↔ all_quotes = []).
Proof.
  intros all_quotes kept. unfold kept, select_quotes. fold all_quotes.
  set (sorted := Py.sort_reverse Nat.ltb (fun q => Py.len (q_quote q)) all_quotes).
  assert (sorted ≡ₚ all_quotes) as Hperm by apply sort_reverse_Permutation.
  pose proof (sort_reverse_len_sorted all_quotes) as Hs. fold sorted in Hs.
  exists (drop 2 sorted). split; [by rewrite take_drop|].
  split; [by rewrite length_take, (Permutation_length Hperm)|].
  split; [|split].
  - intros q q' (i & Hi & Hlt)%elem_of_take [j Hj]%list_elem_of_lookup_1.
    rewrite lookup_drop in Hj.
    apply (StronglySorted_lookup _ sorted i (2 + j) q q' Hs); [lia|done|done].
  - rewrite <- (take_drop 2 sorted) in Hs. by apply StronglySorted_app_1_l in Hs.
  - split.
    + intros Hnil. apply (f_equal length) in Hnil.
      rewrite length_take, (Permutation_length Hperm) in Hnil.
      destruct all_quotes; [done | simpl in Hnil; lia].
    + intros Hnil. apply Permutation_nil_r.
      rewrite Hnil in Hperm. apply Permutation_nil_r in Hperm. by rewrite Hperm.
Qed.

(** ** Files with too few records *)

(** X7. The output is empty exactly when no trainer has at least 3 valid
    records with a defined composite score in each half of its cohort; in
    particular a file of fewer than 3 rows gives no entry and no failure. *)
Theorem empty_output (argsort : list Z → list nat) (df : DataFrame) :
  (main argsort df = [] ↔
   ∀ t, (length (group_of df t) < 3)%nat ∨
        half_scores (early_half (sort_values argsort (group_of df t))) = [] ∨
        half_scores (late_half (sort_values argsort (group_of df t))) = []) ∧
  ((length (rows df) < 3)%nat → main argsort df = []).
Proof.
  assert (main argsort df = [] ↔ trainer_stats argsort df = []) as Hmain.
  { unfold main, top_2. split.
    - intros H. apply (f_equal length) in H.
      rewrite length_imap, length_take,
        (Permutation_length (ranked_stats_Permutation argsort df)) in H.
      destruct (trainer_stats argsort df); [done | simpl in H; lia].
    - intros H. unfold ranked_stats. by rewrite H. }
  assert (trainer_stats argsort df = [] ↔
          ∀ t, trainer_stat argsort t (group_of df t) = None) as Hstats.
  { split.
    - intros Hnil t. destruct (trainer_stat argsort t (group_of df t)) as [st|] eqn:E; [|done].
      assert (t ∈ trainer <$> trainer_stats argsort df) as Hin.
      { apply trainer_in_stats_iff. apply trainer_stat_Some in E as (? & ? & ? & _). auto. }
      rewrite Hnil in Hin. by apply not_elem_of_nil in Hin.
    - intros Hnone. destruct (trainer_stats argsort df) as [|st l] eqn:E; [done|].
      assert (st ∈ trainer_stats argsort df) as Hst by (rewrite E; left).
      apply elem_of_trainer_stats_group in Hst. by rewrite Hnone in Hst. }
  split.
  - rewrite Hmain, Hstats. split; intros H t; specialize (H t).
    + by apply (proj1 (trainer_stat_None argsort t (group_of df t))).
    + by apply (proj2 (trainer_stat_None argsort t (group_of df t))).
  - intros Hlen. apply Hmain, Hstats. intros t. apply trainer_stat_None. left.
    unfold group_of, valid_rows.
    pose proof (length_filter (fun r => Trainer r = Some t)
                  (filter (fun r => valid r = true) (assign_row_ids (rows df)))) as H1.
    pose proof (length_filter (fun r => valid r = true) (assign_row_ids (rows df))) as H2.
    unfold assign_row_ids in *. rewrite length_imap in H2. lia.
Qed.

(** ** Row identifiers *)

Lemma concat_zeros_S (n : nat) :
  String.concat "" (replicate (S n) "0") = String "0" (String.concat "" (replicate n "0")).
Proof. destruct n; reflexivity. Qed.

Lemma zero_padding (n : nat) (d : Decimal.uint) :
  String.concat "" (replicate n "0") +:+ NilEmpty.string_of_uint d
  = NilEmpty.string_of_uint (Nat.iter n Decimal.D0 d).
Proof.
  induction n as [|n IH]; [done|].
  rewrite concat_zeros_S.
  change (Nat.iter (S n) Decimal.D0 d) with (Decimal.D0 (Nat.iter n Decimal.D0 d)).
  change (NilEmpty.string_of_uint (Decimal.D0 ?x))
    with (String "0" (NilEmpty.string_of_uint x)).
  rewrite <- IH. reflexivity.
Qed.

Lemma of_uint_zeros (n : nat) (d : Decimal.uint) :
  Nat.of_uint (Nat.iter n Decimal.D0 d) = Nat.of_uint d.
Proof.
  induction n as [|n IH]; [done|].
  change (Nat.iter (S n) Decimal.D0 d) with (Decimal.D0 (Nat.iter n Decimal.D0 d)).
  exact IH.
Qed.

Lemma row_number_format (i : nat) : row_number ("R" +:+ Py.format_04d i) = Some i.
Proof.
  unfold Py.format_04d. cbv zeta. rewrite zero_padding.
  change (row_number ("R" +:+ ?s)) with (Nat.of_uint <$> NilEmpty.uint_of_string s).
  rewrite NilEmpty.usu. simpl. by rewrite of_uint_zeros, Unsigned.of_to.
Qed.

Lemma format_04d_len (i : nat) : (4 ≤ Py.len (Py.format_04d i))%nat.
Proof.
  unfold Py.format_04d. cbv zeta. rewrite append_len.
  set (d := NilEmpty.string_of_uint (Nat.to_uint i)).
  assert (∀ n, Py.len (String.concat "" (replicate n "0")) = n) as Hpad.
  { induction n as [|n IH]; [done|]. rewrite concat_zeros_S.
    change (Py.len (String ?c ?s)) with (S (Py.len s)). by rewrite IH. }
  rewrite Hpad. unfold Py.len. lia.
Qed.

(** X8. Row identifiers are assigned by position in the file, before any
    row is filtered out: the row at position [k] gets the letter R and the
    number [k + 1] in at least 4 digits and keeps its other fields, the
    number can be read back from the identifier, and no two rows share an
    identifier. *)
Theorem row_ids_by_position (rs : list Row) :
  length (assign_row_ids rs) = length rs ∧
  (∀ k r, assign_row_ids rs !! k = Some r →
     row_number (row_id r) = Some (S k) ∧
     (5 ≤ Py.len (row_id r))%nat ∧
     ∃ orig, rs !! k = Some orig ∧ Trainer r = Trainer orig ∧
             creation_datetime r = creation_datetime orig ∧
             scores r = scores orig ∧ cells r = cells orig) ∧
  NoDup (row_id <$> assign_row_ids rs).
Proof.
  assert (∀ k r, assign_row_ids rs !! k = Some r →
            ∃ orig, rs !! k = Some orig ∧
                    r = with_row_id ("R" +:+ Py.format_04d (S k)) orig) as Hk.
  { intros k r H. unfold assign_row_ids in H. rewrite list_lookup_imap in H.
    destruct (rs !! k) as [orig|]; [|discriminate]. injection H as <-. by exists orig. }
  split; [apply length_imap|]. split.
  - intros k r (orig & Horig & ->)%Hk. cbn [with_row_id row_id Trainer creation_datetime
                                             scores cells].
    split; [apply row_number_format|]. split.
    + change (Py.len ("R" +:+ ?s)) with (S (Py.len s)).
      pose proof (format_04d_len (S k)). lia.
    + by exists orig.
  - apply NoDup_alt. intros i j rid Hi Hj.
    rewrite list_lookup_fmap in Hi, Hj.
    destruct (assign_row_ids rs !! i) as [ri|] eqn:Ei; [|discriminate].
    destruct (assign_row_ids rs !! j) as [rj|] eqn:Ej; [|discriminate].
    injection Hi as <-. injection Hj as Hj.
    apply Hk in Ei as (oi & _ & ->). apply Hk in Ej as (oj & _ & ->).
    cbn [with_row_id row_id] in Hj.
    pose proof (row_number_format (S i)) as Hni.
    pose proof (row_number_format (S j)) as Hnj.
    rewrite Hj in Hnj. congruence.
Qed.

(** The third row of the sample frame is R0003, whatever was filtered. *)
Lemma row_ids_by_position_demo :
  row_id <$> assign_row_ids (rows df_demo) !! 2%nat = Some "R0003" ∧
  row_number "R0003" = Some 3%nat.
Proof.
  split; [vm_compute; reflexivity|].
  destruct (assign_row_ids (rows df_demo) !! 2%nat) as [r|] eqn:E;
    [|vm_compute in E; discriminate].
  destruct (row_ids_by_position (rows df_demo)) as (_ & Hk & _).
  destruct (Hk 2%nat r E) as (Hn & _).
  replace (row_id r) with "R0003" in Hn; [exact Hn|].
  vm_compute in E. injection E as <-. reflexivity.
Defined.

(** The quotes of anna's entry on the sample frame lead back to row 0 of
    the file. *)
Lemma quote_provenance_demo :
  ∃ r q orig text,
    main Np.argsort df_demo !! 0%nat = Some r ∧ quotes r !! 0%nat = Some q ∧
    rows df_demo !! 0%nat = Some orig ∧
    Trainer orig = Some (trainer_name r) ∧
    q_row_id q = "R0001" ∧
    cells orig !! q_source_column q = Some text ∧
    q_quote q = limit_quote (Py.strip text).
Proof.
  destruct (main Np.argsort df_demo !! 0%nat) as [r|] eqn:Hr;
    [|vm_compute in Hr; discriminate].
  destruct (quotes r !! 0%nat) as [q|] eqn:Hq.
  2:{ vm_compute in Hr. injection Hr as <-. vm_compute in Hq. discriminate. }
  destruct (quote_provenance Np.argsort df_demo r q)
    as (k & orig & text & Hk & Ht & Hid & _ & _ & Hcell & Hquote).
  { by eapply list_elem_of_lookup_2. }
  { by eapply list_elem_of_lookup_2. }
  assert (q_row_id q = "R0001") as Hrid.
  { vm_compute in Hr. injection Hr as <-. vm_compute in Hq. injection Hq as <-. reflexivity. }
  assert (k = 0%nat) as ->.
  { pose proof (row_number_format (S k)) as Hn. rewrite <- Hid, Hrid in Hn.
    vm_compute in Hn. congruence. }
  exists r, q, orig, text. repeat split; assumption.
Defined.

(** ** Outreach e-mails *)

Lemma append_assoc (s t u : string) : (s +:+ t) +:+ u = s +:+ (t +:+ u).
Proof.
  induction s as [|c s IH]; [done|].
  change (String c ((s +:+ t) +:+ u) = String c (s +:+ (t +:+ u))). by rewrite IH.
Qed.

Lemma generate_email_inr (now : string) (td : Result) (e : Outreach.Email) :
  Outreach.generate_email now td = inr e ↔
  ∃ q rest, quotes td = q :: rest ∧
    e = Outreach.mkEmail (Outreach.extract_first_name (trainer_name td)) (trainer_name td)
          (Outreach.subject_of (Outreach.extract_first_name (trainer_name td)))
          (Outreach.body_of (Outreach.extract_first_name (trainer_name td)) (q_quote q))
          (q_quote q) (q_row_id q) now.
Proof.
  unfold Outreach.generate_email, Outreach.getitem.
  destruct (quotes td) as [|q rest]; simpl.
  - split; [discriminate | intros (? & ? & ? & _); discriminate].
  - split.
    + intros [= <-]. by exists q, rest.
    + intros (q' & rest' & [= <- <-] & ->). done.
Qed.

(** X9. An e-mail is built from the first quote alone: the later quotes of
    the record change nothing.  The address is the trainer name as given,
    the evidence is the text and the row of that first quote, and the body
    greets the trainer by first name and shows the quote between double
    quotation marks, character for character. *)
Theorem generate_email_first_quote (now : string) (td : Result) (q : Quote)
    (rest : list Quote) :
  quotes td = q :: rest →
  ∃ e, Outreach.generate_email now td = inr e ∧
       Outreach.trainer_email e = trainer_name td ∧
       Outreach.e_trainer_name e = Outreach.extract_first_name (trainer_name td) ∧
       Outreach.evidence_quote e = q_quote q ∧
       Outreach.evidence_row_id e = q_row_id q ∧
       Outreach.generated_at e = now ∧
       String.prefix ("Hi " +:+ Outreach.e_trainer_name e +:+ ",") (Outreach.email_body e) = true ∧
       Py.contains (Outreach.email_body e)
                   (Outreach.dquote +:+ q_quote q +:+ Outreach.dquote) = true ∧
       (∀ rest',
          Outreach.generate_email now
            (mkResult (rank td) (trainer_name td) (r_n_responses td) (improvement_score td)
                      (mean_early_score td) (mean_late_score td) (q :: rest')
                      (case_study_angle td))
          = inr e).
Proof.
  intros Hq. eexists. split.
  { apply generate_email_inr. exists q, rest. split; [exact Hq | reflexivity]. }
  cbn [Outreach.trainer_email Outreach.e_trainer_name Outreach.evidence_quote
       Outreach.evidence_row_id Outreach.generated_at Outreach.email_body].
  do 5 (split; [reflexivity|]). split; [|split].
  - apply prefix_true_iff. unfold Outreach.body_of. eexists.
    rewrite !append_assoc. reflexivity.
  - apply contains_true_iff. unfold Outreach.body_of.
    exists ("Hi " +:+ Outreach.extract_first_name (trainer_name td) +:+
",

I wanted to reach out personally because I've been reviewing our trainer feedback data and your name kept coming up in a really positive way.

Over the past few months, we've seen strong improvement in your training scores and the feedback from learners has been genuinely impressive. Here's one that really stood out to me:

"). eexists.
    rewrite !append_assoc. reflexivity.
  - intros rest'. apply generate_email_inr. exists q, rest'. split; reflexivity.
Qed.

Lemma generate_email_first_quote_demo :
  ∃ r e, main Np.argsort df_demo !! 0%nat = Some r ∧
         Outreach.generate_email "2026-02-01T09:00:00" r = inr e ∧
         Outreach.e_trainer_name e = "Anna" ∧
         Outreach.evidence_row_id e = "R0001" ∧
         Outreach.evidence_quote e = "I really enjoyed every single session a lot".
Proof.
  destruct (main Np.argsort df_demo !! 0%nat) as [r|] eqn:Hr;
    [|vm_compute in Hr; discriminate].
  destruct (quotes r) as [|q rest] eqn:Hq.
  { vm_compute in Hr. injection Hr as <-. vm_compute in Hq. discriminate. }
  destruct (generate_email_first_quote "2026-02-01T09:00:00" r q rest Hq)
    as (e & He & _ & Hn & Hev & Hid & _).
  exists r, e. split; [reflexivity|]. split; [exact He|].
  vm_compute in Hr. injection Hr as <-. vm_compute in Hq. injection Hq as <- <-.
  rewrite Hn, Hid, Hev. repeat split; vm_compute; reflexivity.
Defined.

Lemma generate_all_inr (clock : nat → string) (trainers : list Result) (k : nat)
    (emails : list Outreach.Email) :
  Outreach.generate_all clock k trainers = inr emails →
  length emails = length trainers ∧
  ∀ i td, trainers !! i = Some td →
          ∃ e, emails !! i = Some e ∧ Outreach.generate_email (clock (k + i)%nat) td = inr e.
Proof.
  revert k emails. induction trainers as [|td trainers IH]; intros k emails H; simpl in H.
  - injection H as <-. split; [done|]. intros i td Hi. by rewrite lookup_nil in Hi.
  - destruct (Outreach.generate_email (clock k) td) as [err|e] eqn:He; [discriminate|].
    destruct (Outreach.generate_all clock (S k) trainers) as [err|es] eqn:Hes; [discriminate|].
    injection H as <-. destruct (IH (S k) es Hes) as [Hlen Hall].
    split; [simpl; by rewrite Hlen|].
    intros [|i] td' Hi; simpl in Hi.
    + injection Hi as <-. exists e. rewrite Nat.add_0_r. done.
    + destruct (Hall i td' Hi) as (e' & ? & ?). exists e'.
      replace (k + S i)%nat with (S k + i)%nat by lia. done.
Qed.

Lemma generate_all_inl (clock : nat → string) (trainers : list Result) (k : nat) :
  Outreach.generate_all clock k trainers = inl Outreach.IndexError ↔
  ∃ td, td ∈ trainers ∧ quotes td = [].
Proof.
  revert k. induction trainers as [|td trainers IH]; intros k; simpl.
  - split; [discriminate | intros (? & []%not_elem_of_nil & _)].
  - destruct (Outreach.generate_email (clock k) td) as [[]|e] eqn:He.
    + split; [|done]. intros _. exists td. split; [left|].
      unfold Outreach.generate_email, Outreach.getitem in He.
      destruct (quotes td); [done | discriminate].
    + assert (quotes td ≠ []) as Hne.
      { apply generate_email_inr in He as (q & rest & -> & _). done. }
      destruct (Outreach.generate_all clock (S k) trainers) as [[]|es] eqn:Hes.
      * split; [|done]. intros _.
        destruct (proj1 (IH (S k))) as (td' & ? & ?); [by rewrite Hes|].
        exists td'. split; [by right | done].
      * split; [discriminate|]. intros (td' & [->|Hin]%elem_of_cons & Hq); [done|].
        assert (Outreach.generate_all clock (S k) trainers = inl Outreach.IndexError) as H
          by (apply IH; by exists td').
        congruence.
Qed.

Lemma select_quotes_nil (df : DataFrame) (group : list Row) :
  select_quotes df group = [] ↔
  extract_positive_quotes (mkDataFrame (columns df) group) (text_cols_of (columns df)) = [].
Proof.
  unfold select_quotes.
  set (all_quotes := extract_positive_quotes _ _).
  pose proof (sort_reverse_Permutation Nat.ltb (fun q => Py.len (q_quote q)) all_quotes)
    as Hperm.
  split.
  - intros Hnil. apply (f_equal length) in Hnil.
    rewrite length_take, (Permutation_length Hperm) in Hnil.
    destruct all_quotes; [done | simpl in Hnil; lia].
  - intros Hnil. by rewrite Hnil.
Qed.

(** X10. An outreach run is all or nothing: it ends with [IndexError]
    exactly when some record has no quote, and otherwise returns one e-mail
    per record, in the order of the records, the one at position [i] built
    at the time of call [i].  Fed with the analyzer's output, it fails
    exactly when a ranked trainer has no qualifying text in any record. *)
Theorem outreach_all_or_nothing (clock : nat → string) :
  (∀ trainers,
     Outreach.main clock trainers = inl Outreach.IndexError ↔
     ∃ td, td ∈ trainers ∧ quotes td = []) ∧
  (∀ trainers emails,
     Outreach.main clock trainers = inr emails →
     length emails = length trainers ∧
     ∀ i td, trainers !! i = Some td →
             ∃ e, emails !! i = Some e ∧ Outreach.generate_email (clock i) td = inr e) ∧
  (∀ argsort df,
     Outreach.main clock (main argsort df) = inl Outreach.IndexError ↔
     ∃ st, st ∈ top_2 argsort df ∧
           extract_positive_quotes (mkDataFrame (columns df) (group_df st))
                                   (text_cols_of (columns df)) = []).
Proof.
  split; [|split].
  - intros trainers. apply generate_all_inl.
  - intros trainers emails H. apply (generate_all_inr clock trainers 0 emails H).
  - intros argsort df. unfold Outreach.main. rewrite generate_all_inl. split.
    + intros (td & Hin & Hq). apply list_elem_of_lookup_1 in Hin as [i Hi].
      unfold main in Hi. rewrite list_lookup_imap in Hi.
      destruct (top_2 argsort df !! i) as [st|] eqn:E; [|discriminate].
      injection Hi as <-. exists st. split; [by eapply list_elem_of_lookup_2|].
      by apply select_quotes_nil.
    + intros (st & [i Hi]%list_elem_of_lookup_1 & Hq).
      exists (build_result df (S i) st). split.
      * eapply (list_elem_of_lookup_2 _ i). unfold main. by rewrite list_lookup_imap, Hi.
      * by apply select_quotes_nil.
Qed.

(** On the sample frame the run fails because of carl; on anna's records
    alone it returns her e-mail. *)
Lemma outreach_all_or_nothing_demo :
  Outreach.main (fun _ => "2026-02-01T09:00:00") (main Np.argsort df_demo)
    = inl Outreach.IndexError ∧
  ∃ e, Outreach.main (fun _ => "2026-02-01T09:00:00") (main Np.argsort df_anna) = inr [e].
Proof.
  destruct (outreach_all_or_nothing (fun _ => "2026-02-01T09:00:00")) as (Hfail & Hok & _).
  split.
  - apply Hfail.
    destruct (main Np.argsort df_demo !! 1%nat) as [r|] eqn:Hr;
      [|vm_compute in Hr; discriminate].
    exists r. split; [by eapply list_elem_of_lookup_2|].
    vm_compute in Hr. injection Hr as <-. reflexivity.
  - destruct (Outreach.main (fun _ => "2026-02-01T09:00:00") (main Np.argsort df_anna))
      as [err|emails] eqn:E; [vm_compute in E; discriminate|].
    destruct (Hok _ _ E) as [Hlen _].
    destruct emails as [|e [|e' emails]]; [vm_compute in Hlen; lia | | vm_compute in Hlen; lia].
    by exists e.
Defined.

(** ** First names *)

Lemma split_head_prefix (sep : ascii) (s : string) :
  ∃ rest, s = Py.split_head sep s +:+ rest.
Proof.
  induction s as [|c s [rest IH]]; [by exists ""|]. simpl.
  destruct (Ascii.eqb c sep); [by eexists|].
  exists rest. change (String c s = String c (Py.split_head sep s +:+ rest)). by rewrite <- IH.
Qed.

Lemma split_head_free (sep : ascii) (s : string) :
  Forall (fun c => c ≠ sep) (list_ascii_of_string (Py.split_head sep s)).
Proof.
  induction s as [|c s IH]; simpl; [constructor|].
  destruct (Ascii.eqb_spec c sep); simpl; [constructor|]. by constructor.
Qed.

Lemma split_head_keeps_free (sep sep' : ascii) (s : string) :
  Forall (fun c => c ≠ sep') (list_ascii_of_string s) →
  Forall (fun c => c ≠ sep') (list_ascii_of_string (Py.split_head sep s)).
Proof.
  induction s as [|c s IH]; simpl; [done|]. intros [Hc Hs]%Forall_cons.
  destruct (Ascii.eqb c sep); simpl; [constructor|]. constructor; auto.
Qed.

Lemma case_maps_keep_separators (c sep : ascii) :
  sep ∈ ["@"; "."; "_"]%char → c ≠ sep →
  Py.lower_char c ≠ sep ∧ Py.upper_char c ≠ sep.
Proof.
  intros Hsep Hc.
  assert (sep = "@" ∨ sep = "." ∨ sep = "_")%char as [->|[->| ->]].
  { apply elem_of_cons in Hsep as [?|Hsep]; [auto|].
    apply elem_of_cons in Hsep as [?|Hsep]; [auto|].
    apply elem_of_cons in Hsep as [?|Hsep]; [auto|]. by apply not_elem_of_nil in Hsep. }
  all: destruct c as [[] [] [] [] [] [] [] []]; split; vm_compute; congruence.
Qed.

Lemma lower_length (s : string) : Py.len (Py.lower s) = Py.len s.
Proof. unfold Py.len. induction s; simpl; auto. Qed.

Lemma lower_free (sep : ascii) (s : string) :
  sep ∈ ["@"; "."; "_"]%char →
  Forall (fun c => c ≠ sep) (list_ascii_of_string s) →
  Forall (fun c => c ≠ sep) (list_ascii_of_string (Py.lower s)).
Proof.
  intros Hsep. induction s as [|c s IH]; simpl; [done|]. intros [Hc Hs]%Forall_cons.
  constructor; [|auto]. by apply case_maps_keep_separators.
Qed.

(** X11. For an address of ASCII characters, the first name taken from
    it contains none of the characters at-sign, dot and underscore; apart
    from the case of its letters it is the beginning of the address, no
    longer than the part before the first of these characters; and it is
    empty exactly when the address is empty or begins with one of them. *)
Theorem first_name_shape (email : string) :
  Py.isascii email = true →
  let name := Outreach.extract_first_name email in
  Forall (fun c => c ∉ ["@"; "."; "_"]%char) (list_ascii_of_string name) ∧
  (∃ rest, Py.lower email = Py.lower name +:+ rest) ∧
  (name = "" ↔
   email = "" ∨ ∃ c rest, email = String c rest ∧ c ∈ ["@"; "."; "_"]%char).
Proof.
  intros _ name. unfold name, Outreach.extract_first_name. cbv zeta.
  set (u := Py.split_head "@" email).
  set (d := Py.split_head "." u).
  set (f := Py.split_head "_" d).
  assert (Forall (fun c => c ≠ "@"%char) (list_ascii_of_string f)) as Hat.
  { unfold f, d. do 2 apply split_head_keeps_free. apply split_head_free. }
  assert (Forall (fun c => c ≠ "."%char) (list_ascii_of_string f)) as Hdot.
  { unfold f. apply split_head_keeps_free. apply split_head_free. }
  assert (Forall (fun c => c ≠ "_"%char) (list_ascii_of_string f)) as Hus
    by apply split_head_free.
  assert (∃ rest, email = f +:+ rest) as [rest Hrest].
  { destruct (split_head_prefix "@" email) as [r1 H1].
    destruct (split_head_prefix "." u) as [r2 H2].
    destruct (split_head_prefix "_" d) as [r3 H3]. fold u in H1. fold d in H2. fold f in H3.
    exists (r3 +:+ r2 +:+ r1). rewrite H1 at 1. rewrite H2 at 1. rewrite H3 at 1.
    by rewrite !append_assoc. }
  split; [|split].
  - destruct f as [|c f']; [constructor|]. cbn [Py.capitalize list_ascii_of_string].
    apply Forall_cons in Hat as [Hat1 Hat], Hdot as [Hdot1 Hdot], Hus as [Hus1 Hus].
    assert (∀ sep, sep ∈ ["@"; "."; "_"]%char → c ≠ sep ∧
              Forall (fun c => c ≠ sep) (list_ascii_of_string f')) as Hall.
    { intros sep Hsep.
      apply elem_of_cons in Hsep as [->|Hsep]; [done|].
      apply elem_of_cons in Hsep as [->|Hsep]; [done|].
      apply elem_of_cons in Hsep as [->|Hsep]; [done|]. by apply not_elem_of_nil in Hsep. }
    constructor.
    + intros Hin. destruct (Hall _ Hin) as [Hc _].
      by apply (case_maps_keep_separators c _ Hin Hc).
    + apply Forall_forall. intros x Hx Hin. destruct (Hall _ Hin) as [_ Hf].
      pose proof (lower_free _ f' Hin Hf) as Hl. rewrite Forall_forall in Hl.
      by apply (Hl x Hx).
  - exists (Py.lower rest). rewrite Hrest.
    assert (∀ a b, Py.lower (a +:+ b) = Py.lower a +:+ Py.lower b) as Happ.
    { intros a b. induction a as [|c a IH]; [done|].
      change (String (Py.lower_char c) (Py.lower (a +:+ b))
              = String (Py.lower_char c) (Py.lower a +:+ Py.lower b)). by rewrite IH. }
    rewrite Happ. f_equal.
    assert (∀ s, Py.lower (Py.lower s) = Py.lower s) as Hidem.
    { induction s as [|c s IH]; [done|]. simpl. rewrite IH. f_equal.
      destruct c as [[] [] [] [] [] [] [] []]; reflexivity. }
    destruct f as [|c f']; [done|]. cbn [Py.capitalize Py.lower]. rewrite Hidem. f_equal.
    destruct c as [[] [] [] [] [] [] [] []]; reflexivity.
  - assert (Py.capitalize f = "" ↔ f = "") as -> by (destruct f; done).
    unfold f, d, u. destruct email as [|c s]; [split; auto|]. simpl.
    destruct (Ascii.eqb_spec c "@") as [->|Hat'].
    { split; [|done]. intros _. right. exists "@"%char, s. split; [done|]. left. }
    simpl. destruct (Ascii.eqb_spec c ".") as [->|Hdot'].
    { split; [|done]. intros _. right. exists "."%char, s. split; [done|]. right. left. }
    simpl. destruct (Ascii.eqb_spec c "_") as [->|Hus'].
    { split; [|done]. intros _. right. exists "_"%char, s. split; [done|]. do 2 right. left. }
    split; [discriminate|]. intros [?|(c' & rest' & [= <- <-] & Hin)]; [done|].
    apply elem_of_cons in Hin as [->|Hin]; [done|].
    apply elem_of_cons in Hin as [->|Hin]; [done|].
    apply elem_of_cons in Hin as [->|Hin]; [done|]. by apply not_elem_of_nil in Hin.
Qed.

(** An address in mixed case: the name is its first part, capitalised. *)
Lemma first_name_shape_demo :
  Outreach.extract_first_name "aNNA.weber@example.org" = "Anna" ∧
  Forall (fun c => c ∉ ["@"; "."; "_"]%char)
         (list_ascii_of_string (Outreach.extract_first_name "aNNA.weber@example.org")) ∧
  ∃ rest, Py.lower "aNNA.weber@example.org"
          = Py.lower (Outreach.extract_first_name "aNNA.weber@example.org") +:+ rest.
Proof.
  split; [vm_compute; reflexivity|].
  assert (Py.isascii "aNNA.weber@example.org" = true) as Hascii by (vm_compute; reflexivity).
  destruct (first_name_shape "aNNA.weber@example.org" Hascii) as (Hfree & Hprefix & _).
  split; [exact Hfree | exact Hprefix].
Defined.

(** ** Splitting into words and wrapping *)

Lemma append_nil_r (s : string) : s +:+ "" = s.
Proof.
  induction s as [|c s IH]; [done|].
  change (String c (s +:+ "") = String c s). by rewrite IH.
Qed.

Lemma list_ascii_app (s t : string) :
  list_ascii_of_string (s +:+ t) = list_ascii_of_string s ++ list_ascii_of_string t.
Proof.
  induction s as [|c s IH]; [done|].
  change (c :: list_ascii_of_string (s +:+ t) = c :: list_ascii_of_string s ++
                                                list_ascii_of_string t).
  by rewrite IH.
Qed.

Lemma split_from_word (cur w rest : string) :
  Forall (fun c => Py.isspace c = false) (list_ascii_of_string w) →
  Py.split_from cur (w +:+ rest) = Py.split_from (cur +:+ w) rest.
Proof.
  revert cur. induction w as [|c w IH]; intros cur Hw.
  - by rewrite append_nil_r.
  - apply Forall_cons in Hw as [Hc Hw].
    change (String c w +:+ rest) with (String c (w +:+ rest)).
    cbn [Py.split_from]. rewrite Hc, IH by done.
    by rewrite append_assoc.
Qed.

Lemma flush_is_word (cur : string) :
  Forall (fun c => Py.isspace c = false) (list_ascii_of_string cur) →
  Forall is_word (Py.flush cur).
Proof.
  intros Hcur. destruct cur as [|c cur]; [constructor|].
  constructor; [by split | constructor].
Qed.

Lemma split_from_is_word (cur s : string) :
  Forall (fun c => Py.isspace c = false) (list_ascii_of_string cur) →
  Forall is_word (Py.split_from cur s).
Proof.
  revert cur. induction s as [|c s IH]; intros cur Hcur; cbn [Py.split_from].
  - by apply flush_is_word.
  - destruct (Py.isspace c) eqn:Hc.
    + apply Forall_app. split; [by apply flush_is_word|]. apply IH. constructor.
    + apply IH. rewrite list_ascii_app. apply Forall_app. split; [done|].
      by repeat constructor.
Qed.

Lemma split_is_word (s : string) : Forall is_word (Py.split s).
Proof. apply split_from_is_word. constructor. Qed.

Lemma split_join (ws : list string) :
  Forall is_word ws → Py.split (Py.join " " ws) = ws.
Proof.
  unfold Py.split, Py.join. induction 1 as [|w ws [Hne Hw] Hws IH]; [done|].
  destruct ws as [|w' ws].
  - cbn [String.concat]. rewrite <- (append_nil_r w) at 1.
    rewrite split_from_word by done. cbn [Py.split_from]. by destruct w.
  - change (String.concat " " (w :: w' :: ws))
      with (w +:+ String " " (String.concat " " (w' :: ws))).
    rewrite split_from_word by done. cbn [Py.split_from].
    change (Py.isspace " ") with true. cbv iota. rewrite IH. by destruct w.
Qed.

Lemma join_snoc_len (cur : list string) (w : string) :
  Py.len (Py.join " " (cur ++ [w]))
  = match cur with
    | [] => Py.len w
    | _ => (Py.len (Py.join " " cur) + 1 + Py.len w)%nat
    end.
Proof.
  unfold Py.join. induction cur as [|x cur IH]; [done|].
  destruct cur as [|y cur].
  - change (String.concat " " ([x] ++ [w])) with (x +:+ String " " w).
    rewrite append_len. change (Py.len (String " " w)) with (S (Py.len w)).
    cbn [String.concat]. lia.
  - change (String.concat " " ((x :: y :: cur) ++ [w]))
      with (x +:+ String " " (String.concat " " ((y :: cur) ++ [w]))).
    change (String.concat " " (x :: y :: cur))
      with (x +:+ String " " (String.concat " " (y :: cur))).
    rewrite !append_len.
    change (Py.len (String " " ?s)) with (S (Py.len s)).
    rewrite IH. lia.
Qed.

(** What the loop keeps true: the finished lines are the joined groups of
    words, the groups followed by the current line are the words read so
    far, every group fits, only the first group can be empty, and
    [current_length] is never below the width of the current line. *)
Lemma wrap_fold (words : list string) (groups : list (list string))
    (cur : list string) (cl : nat) :
  Forall fits groups →
  (∀ i g, groups !! i = Some g → g = [] → i = 0%nat) →
  (cur = [] → groups = [] ∧ cl = 0%nat) →
  (cur ≠ [] → (Py.len (Py.join " " cur) ≤ cl)%nat ∧ ((cl ≤ 70)%nat ∨ length cur = 1%nat)) →
  ∃ groups' cur' cl',
    foldl wrap_step (Py.join " " <$> groups, cur, cl) words
      = (Py.join " " <$> groups', cur', cl') ∧
    concat groups' ++ cur' = concat groups ++ cur ++ words ∧
    Forall fits groups' ∧
    (∀ i g, groups' !! i = Some g → g = [] → i = 0%nat) ∧
    fits cur' ∧
    (cur' = [] → groups' = []).
Proof.
  revert groups cur cl. induction words as [|w words IH]; intros groups cur cl Hfit Hemp H0 H1.
  - exists groups, cur, cl. rewrite app_nil_r. repeat split; auto.
    + destruct cur as [|x cur]; [right; simpl; lia|].
      destruct H1 as [Hlen [?|Hone]]; [done|left; lia|right; lia].
    + intros Hcur. by apply H0.
  - cbn [foldl wrap_step].
    destruct (Nat.leb_spec (cl + Py.len w + 1) 70) as [Hle|Hgt].
    + destruct (IH groups (cur ++ [w]) (cl + Py.len w + 1)%nat) as (g' & c' & l' & Hf & Hc & ?);
        [done|done| |..].
      * intros Hnil. by destruct cur.
      * intros _. split; [|left; lia]. rewrite join_snoc_len.
        destruct cur as [|x cur]; [lia|]. destruct H1 as [Hlen _]; [done|]. lia.
      * exists g', c', l'. split; [exact Hf|]. split; [|done].
        rewrite Hc, <- app_assoc. done.
    + assert (Py.join " " <$> groups ++ [cur] = (Py.join " " <$> groups) ++ [Py.join " " cur])
        as Hgroups by (by rewrite fmap_app).
      rewrite <- Hgroups.
      destruct (IH (groups ++ [cur]) [w] (Py.len w)) as (g' & c' & l' & Hf & Hc & ?).
      * apply Forall_app. split; [done|]. constructor; [|constructor].
        destruct cur as [|x cur]; [right; simpl; lia|].
        destruct H1 as [Hlen [?|Hone]]; [done|left; lia|right; lia].
      * intros i g Hi ->. apply lookup_app_Some in Hi as [Hi|[Hlen Hi]]; [by eapply Hemp|].
        destruct (i - length groups)%nat as [|k] eqn:Ek; [|discriminate].
        injection Hi as Hcur. destruct (H0 Hcur) as [-> _]. simpl in *. lia.
      * done.
      * intros _. split; [done|]. by right.
      * exists g', c', l'. split; [exact Hf|]. split; [|done].
        rewrite Hc, concat_app. simpl. rewrite app_nil_r, <- !app_assoc. done.
Qed.

Lemma wrap_words_groups (words : list string) :
  ∃ groups, wrap_words words = Py.join " " <$> groups ∧
            concat groups = words ∧ Forall fits groups ∧
            (∀ i g, groups !! i = Some g → g = [] → i = 0%nat).
Proof.
  destruct (wrap_fold words [] [] 0) as (groups & cur & cl & Hf & Hc & Hfit & Hemp & Hcur & _);
    [constructor | by intros i g; rewrite lookup_nil | done | done |].
  unfold wrap_words. change (@nil string) with (Py.join " " <$> @nil (list string)) at 1.
  rewrite Hf. simpl in Hc.
  destruct cur as [|x cur].
  - exists groups. rewrite app_nil_r in Hc. done.
  - exists (groups ++ [x :: cur]). split; [by rewrite fmap_app|].
    split; [by rewrite concat_app; simpl; rewrite app_nil_r|]. split.
    + apply Forall_app. split; [done|]. constructor; [exact Hcur | constructor].
    + intros i g Hi ->. apply lookup_app_Some in Hi as [Hi|[_ Hi]]; [by eapply Hemp|].
      destruct (i - length groups)%nat; discriminate.
Qed.

Lemma Forall_is_word_concat (groups : list (list string)) :
  Forall is_word (concat groups) → Forall (Forall is_word) groups.
Proof.
  induction groups as [|g groups IH]; [constructor|]. simpl.
  intros [? ?]%Forall_app. constructor; auto.
Qed.

(** X12. Laying a quote out for the console loses no word and changes no
    order: the words of the lines, read line after line, are the words of
    the quote.  Every line has at most 70 characters unless it is a single
    word, and only the first line can be empty. *)
Theorem wrap_quote_words (quote : string) :
  concat (Py.split <$> wrap_quote quote) = Py.split quote ∧
  (∀ line, line ∈ wrap_quote quote →
     (Py.len line ≤ 70)%nat ∨ (length (Py.split line) ≤ 1)%nat) ∧
  (∀ i, wrap_quote quote !! i = Some "" → i = 0%nat).
Proof.
  unfold wrap_quote.
  destruct (wrap_words_groups (Py.split quote)) as (groups & -> & Hc & Hfit & Hemp).
  pose proof (split_is_word quote) as Hw. rewrite <- Hc in Hw.
  apply Forall_is_word_concat in Hw.
  assert (Py.split <$> (Py.join " " <$> groups) = groups) as Hsplit.
  { clear -Hw. induction Hw as [|g groups Hg Hw IH]; [done|].
    csimpl. rewrite IH. f_equal. by apply split_join. }
  split; [by rewrite Hsplit|]. split.
  - intros line (g & -> & Hg)%list_elem_of_fmap.
    rewrite Forall_forall in Hfit, Hw.
    rewrite (split_join g (Hw g Hg)). apply (Hfit g Hg).
  - intros i Hi. rewrite list_lookup_fmap in Hi.
    destruct (groups !! i) as [g|] eqn:Eg; [|discriminate]. injection Hi as Hi.
    apply (Hemp i g Eg).
    rewrite Forall_forall in Hw.
    pose proof (split_join g (Hw g (list_elem_of_lookup_2 _ _ _ Eg))) as Hs.
    rewrite Hi in Hs. done.
Qed.

(** A quote of 22 words on two lines; a first word of 94 characters leaves
    the first line empty. *)
Lemma wrap_quote_words_demo :
  wrap_quote "The sessions were great and very clear and I really enjoyed every single session a lot because the trainer was patient"
    = ["The sessions were great and very clear and I really enjoyed every";
       "single session a lot because the trainer was patient"] ∧
  wrap_quote (sample_text 88 +:+ " bb") !! 0%nat = Some "great" ∧
  (∀ i, wrap_quote (String.concat "" (replicate 94 "a") +:+ " bb") !! i = Some "" → i = 0%nat) ∧
  wrap_quote (String.concat "" (replicate 94 "a") +:+ " bb") !! 0%nat = Some "".
Proof.
  split; [vm_compute; reflexivity|]. split; [vm_compute; reflexivity|].
  split; [|vm_compute; reflexivity].
  apply (wrap_quote_words (String.concat "" (replicate 94 "a") +:+ " bb")).
Defined.

(** ** The CSV export *)

Lemma quote_of_cell_nonempty (rid col : string) (text : option string) (q : Quote) :
  quote_of_cell rid col text = Some q → q_quote q ≠ EmptyString.
Proof.
  intros (t & _ & _ & _ & _ & Hlen & _ & ->)%quote_of_cell_Some.
  cbn [q_quote]. unfold limit_quote. intros Hnil. apply (f_equal Py.len) in Hnil.
  destruct (Nat.ltb_spec 200 (Py.len (Py.strip t))) as [Hlong|Hshort].
  - rewrite append_len, slice_to_len in Hnil. vm_compute (Py.len "...") in Hnil.
    change (Py.len EmptyString) with 0%nat in Hnil. lia.
  - change (Py.len EmptyString) with 0%nat in Hnil. lia.
Qed.

Lemma select_quotes_nonempty (df : DataFrame) (group : list Row) (q : Quote) :
  q ∈ select_quotes df group → q_quote q ≠ EmptyString.
Proof.
  intros (col & row & _ & _ & _ & Hq)%elem_of_select_quotes%elem_of_extract_positive_quotes.
  by eapply quote_of_cell_nonempty.
Qed.

(** X13. The CSV export never fails and loses no quote of the analysis:
    for every entry of the output the row has the rank and the name of the
    entry, and its quote columns that are not empty are the quotes of the
    entry, in their order; a missing quote leaves both of its columns
    empty. *)
Theorem csv_export_keeps_quotes (argsort : list Z → list nat) (df : DataFrame) :
  Forall2
    (fun result row =>
       Rank row = rank result ∧
       Trainer_Name row = trainer_name result ∧
       filter (fun cell => cell.2 ≠ EmptyString)
              [(Quote_1_Row_ID row, Quote_1 row); (Quote_2_Row_ID row, Quote_2 row)]
       = (fun q => (q_row_id q, q_quote q)) <$> quotes result ∧
       (quotes result !! 0%nat = None → Quote_1_Row_ID row = EmptyString ∧ Quote_1 row = EmptyString) ∧
       (quotes result !! 1%nat = None → Quote_2_Row_ID row = EmptyString ∧ Quote_2 row = EmptyString))
    (main argsort df) (csv_rows (main argsort df)).
Proof.
  unfold csv_rows. apply Forall2_fmap_r, Forall_Forall2_diag, Forall_forall.
  intros r (i & st & _ & _ & _ & ->)%elem_of_main.
  split; [done|]. split; [done|].
  cbn [flatten_result build_result quotes Quote_1_Row_ID Quote_1 Quote_2_Row_ID Quote_2].
  pose proof (select_quotes_nonempty df (group_df st)) as Hne.
  assert (length (select_quotes df (group_df st)) ≤ 2)%nat as Hlen.
  { unfold select_quotes. rewrite length_take. lia. }
  destruct (select_quotes df (group_df st)) as [|q1 [|q2 [|q3 l]]];
    cbn [lookup list_lookup get_or_empty fmap list_fmap].
  - split; [|done]. by rewrite !filter_cons_False, filter_nil by (cbn; tauto).
  - split; [|split; [discriminate|done]].
    rewrite filter_cons_True by (cbn; apply Hne; set_solver).
    by rewrite filter_cons_False, filter_nil by (cbn; tauto).
  - split; [|split; discriminate].
    rewrite filter_cons_True by (cbn; apply Hne; set_solver).
    by rewrite filter_cons_True, filter_nil by (cbn; apply Hne; set_solver).
  - simpl in Hlen. lia.
Qed.

(** ** The score columns *)

Lemma prefix_append (p s : string) : String.prefix p s = true → ∃ r, s = p +:+ r.
Proof.
  revert s. induction p as [|c p IH]; intros s H; [by exists s|].
  destruct s as [|d s]; [discriminate|]. simpl in H.
  destruct (ascii_dec c d) as [->|]; [|discriminate].
  destruct (IH s H) as [r ->]. by exists r.
Qed.

Lemma score_cols_exclusive (col a b : string) :
  a ∈ score_cols → b ∈ score_cols →
  Py.startswith col a = true → Py.startswith col b = true → a = b.
Proof.
  unfold score_cols, Py.startswith. intros Ha Hb [r ->]%prefix_append [r' Hr']%prefix_append.
  cbv beta iota delta [String.append] in Hr'.
  repeat (apply elem_of_cons in Ha as [->|Ha]); [..|by apply elem_of_nil in Ha];
    (repeat (apply elem_of_cons in Hb as [->|Hb]); [..|by apply elem_of_nil in Hb]);
    first [reflexivity | discriminate Hr'].
Qed.

Lemma NoDup_flat_map_tagged {A B} (f : A → list B) (R : B → A → Prop) (l : list A) :
  NoDup l →
  (∀ x, x ∈ l → NoDup (f x)) →
  (∀ x y, x ∈ l → y ∈ f x → R y x) →
  (∀ y x x', x ∈ l → x' ∈ l → R y x → R y x' → x = x') →
  NoDup (flat_map f l).
Proof.
  intros Hl Hf HR Hinj. induction Hl as [|x l Hx Hl IH]; [constructor|].
  cbn [flat_map]. apply NoDup_app. split; [apply Hf; left|]. split.
  - intros y Hy Hy'. apply list_elem_of_In, in_flat_map in Hy' as (x' & Hx' & Hy').
    apply list_elem_of_In in Hx', Hy'.
    assert (x = x') as <-; [|done].
    apply (Hinj y); [left | by right | apply HR; [left|done] | apply HR; [by right|done]].
  - apply IH.
    + intros x' Hx'. apply Hf. by right.
    + intros x' y Hx'. apply HR. by right.
    + intros y x1 x2 H1 H2. apply Hinj; by right.
Qed.

(** X14. No column is taken twice as a score column, whatever the names
    of the columns of the file are: at most 7 columns are taken, each is a
    column of the file whose name starts with one of the codes, and they
    are pairwise different, so no score enters the composite mean twice. *)
Theorem score_columns_distinct (cols : list string) :
  NoDup (actual_score_cols cols) ∧
  (length (actual_score_cols cols) ≤ 7)%nat ∧
  ∀ col, col ∈ actual_score_cols cols →
         col ∈ cols ∧ ∃ score_col, score_col ∈ score_cols ∧ Py.startswith col score_col = true.
Proof.
  assert (∀ score_col col,
            col ∈ match filter (fun col => Py.startswith col score_col) cols with
                  | [] => []
                  | col :: _ => [col]
                  end →
            col ∈ cols ∧ Py.startswith col score_col = true) as Hsel.
  { intros score_col col Hcol.
    destruct (filter _ cols) as [|c l] eqn:E; [by apply elem_of_nil in Hcol|].
    apply list_elem_of_singleton in Hcol as ->.
    assert (c ∈ filter (fun col => Py.startswith col score_col) cols) as Hc
      by (rewrite E; left).
    apply list_elem_of_filter in Hc as [Hc ?]. split; [done|]. by apply Is_true_true_1. }
  split; [|split].
  - unfold actual_score_cols.
    apply (NoDup_flat_map_tagged _
             (fun col score_col => Py.startswith col score_col = true)).
    + apply (bool_decide_unpack _). vm_compute. exact I.
    + intros score_col _. destruct (filter _ cols); [constructor|apply NoDup_singleton].
    + intros score_col col _ Hcol. by apply Hsel in Hcol as [_ ?].
    + intros col a b Ha Hb. by apply score_cols_exclusive.
  - unfold actual_score_cols, score_cols. cbn [flat_map]. rewrite !length_app.
    repeat match goal with
           | |- context [filter ?P cols] => destruct (filter P cols)
           end; simpl; lia.
  - intros col Hcol. unfold actual_score_cols in Hcol.
    apply list_elem_of_In, in_flat_map in Hcol as (score_col & Hsc & Hcol).
    apply list_elem_of_In in Hsc, Hcol. apply Hsel in Hcol as [? ?].
    split; [done|]. by exists score_col.
Qed.

(** ** The HTML report *)

Lemma prefix_append_self (kw post : string) : String.prefix kw (kw +:+ post) = true.
Proof.
  induction kw as [|c kw IH]; [by destruct post|].
  change (String c kw +:+ post) with (String c (kw +:+ post)). simpl.
  by destruct (ascii_dec c c).
Qed.

Lemma prefix_append_l (kw s b : string) :
  String.prefix kw s = true → String.prefix kw (s +:+ b) = true.
Proof.
  intros [r ->]%prefix_append. rewrite append_assoc. apply prefix_append_self.
Qed.

Lemma contains_unfold (s kw : string) :
  Py.contains s kw =
  String.prefix kw s || match s with EmptyString => false | String _ s' => Py.contains s' kw end.
Proof. by destruct s. Qed.

Lemma contains_app_r (a s kw : string) :
  Py.contains s kw = true → Py.contains (a +:+ s) kw = true.
Proof.
  intros H. induction a as [|c a IH]; [done|].
  change (String c a +:+ s) with (String c (a +:+ s)).
  rewrite contains_unfold, IH. apply orb_true_r.
Qed.

Lemma contains_app_l (s b kw : string) :
  Py.contains s kw = true → Py.contains (s +:+ b) kw = true.
Proof.
  induction s as [|c s IH]; intros H.
  - rewrite contains_unfold, orb_false_r in H.
    rewrite contains_unfold. apply orb_true_intro. left.
    by apply (prefix_append_l kw EmptyString b).
  - rewrite contains_unfold in H. apply orb_true_iff in H as [H|H].
    + rewrite contains_unfold. apply orb_true_intro. left. by apply prefix_append_l.
    + change (String c s +:+ b) with (String c (s +:+ b)).
      rewrite contains_unfold, (IH H). apply orb_true_r.
Qed.

Lemma contains_infix (pre kw post : string) :
  Py.contains (pre +:+ kw +:+ post) kw = true.
Proof.
  apply contains_app_r. rewrite contains_unfold.
  apply orb_true_intro. left. apply prefix_append_self.
Qed.

Lemma contains_foldl_init {A} (f : A → string) (kw : string) (l : list A) (init : string) :
  Py.contains init kw = true →
  Py.contains (foldl (fun html x => html +:+ f x) init l) kw = true.
Proof.
  revert init. induction l as [|x l IH]; intros init H; [done|].
  cbn [foldl]. apply IH. by apply contains_app_l.
Qed.

Lemma contains_foldl_elem {A} (f : A → string) (kw : string) (l : list A) (init : string) (x : A) :
  x ∈ l → Py.contains (f x) kw = true →
  Py.contains (foldl (fun html x => html +:+ f x) init l) kw = true.
Proof.
  intros Hx Hkw. revert init. induction Hx as [x l|x y l Hx IH]; intros init; cbn [foldl].
  - apply contains_foldl_init. by apply contains_app_r.
  - by apply IH.
Qed.

Lemma contains_quote_block (quote : Quote) (label : string) :
  Py.contains (quote_block quote label) (quote_text_div (q_quote quote)) = true.
Proof.
  assert (∃ post, quote_block quote label =
                  ("
                <div class=" +:+ dq +:+ "quote" +:+ dq +:+ ">
                    ") +:+ quote_text_div (q_quote quote) +:+ post) as [post ->];
    [|apply contains_infix].
  eexists. unfold quote_block, quote_text_div. rewrite !append_assoc. reflexivity.
Qed.

Section ReportFacts.
Variable format_f : nat → Q → string.

Lemma contains_card_head (rank_class improvement_sign : string) (result : Result) :
  Py.contains (card_head format_f rank_class improvement_sign result)
              (trainer_name_div (trainer_name result)) = true.
Proof.
  assert (∃ post, card_head format_f rank_class improvement_sign result =
                  ("
        <div class=" +:+ dq +:+ "trainer-card" +:+ dq +:+ ">
            <div class=" +:+ dq +:+ "card-header" +:+ dq +:+ ">
                <div class=" +:+ dq +:+ "rank-badge " +:+ rank_class +:+ dq +:+ ">#" +:+ Py.str (rank result) +:+ "</div>
                ") +:+ trainer_name_div (trainer_name result) +:+ post) as [post ->];
    [|apply contains_infix].
  eexists. unfold card_head, trainer_name_div. rewrite !append_assoc. reflexivity.
Qed.

Lemma contains_result_card_init (html kw : string) (result : Result) :
  Py.contains html kw = true → Py.contains (result_card format_f html result) kw = true.
Proof.
  intros H. unfold result_card. apply contains_app_l.
  apply (contains_foldl_init (fun quote => quote_block quote (source_clean (q_source_column quote)))).
  by apply contains_app_l.
Qed.

Lemma contains_foldl_result_card (kw : string) (results : list Result) (init : string)
    (result : Result) :
  result ∈ results →
  (∀ html, Py.contains (result_card format_f html result) kw = true) →
  Py.contains (foldl (result_card format_f) init results) kw = true.
Proof.
  intros Hr Hkw. revert init.
  induction Hr as [r l|r r' l Hr IH]; intros init; cbn [foldl]; [|by apply IH].
  generalize (Hkw init). generalize (result_card format_f init r). clear.
  induction l as [|r' l IH]; intros html H; [done|].
  cbn [foldl]. apply IH. by apply contains_result_card_init.
Qed.

End ReportFacts.

(** X15. The report shows the text as it is: for every entry the page
    contains the name of the trainer between the tags of its element, and
    every quote of the entry between the tags of a quote; not one character
    of either is escaped or dropped, whatever the text is. *)
Theorem report_embeds_text_verbatim (format_f : nat → Q → string)
    (results : list Result) (result : Result) :
  result ∈ results →
  Py.contains (generate_html_report format_f results)
              (trainer_name_div (trainer_name result)) = true ∧
  ∀ quote, quote ∈ quotes result →
           Py.contains (generate_html_report format_f results)
                       (quote_text_div (q_quote quote)) = true.
Proof.
  intros Hr. unfold generate_html_report. split.
  - apply contains_app_l, (contains_foldl_result_card _ _ _ _ result Hr).
    intros html. unfold result_card. apply contains_app_l.
    apply (contains_foldl_init
             (fun quote => quote_block quote (source_clean (q_source_column quote)))).
    apply contains_app_r, contains_card_head.
  - intros quote Hq.
    apply contains_app_l, (contains_foldl_result_card _ _ _ _ result Hr).
    intros html. unfold result_card. apply contains_app_l.
    apply (contains_foldl_elem
             (fun quote => quote_block quote (source_clean (q_source_column quote)))
             _ _ _ quote Hq).
    apply contains_quote_block.
Qed.

(** Markup in a name or in a quote reaches the page as it is. *)
Lemma report_embeds_text_verbatim_demo :
  let quote := mkQuote "R0007" "<b>Great</b> & clear sessions all along" col_like in
  let result := mkResult 1 "tina <tina@example.org>" 3 1%Q 2%Q 3%Q [quote] exceptional_growth in
  Py.contains (generate_html_report (fun _ _ => "1.00") [result])
              (trainer_name_div "tina <tina@example.org>") = true ∧
  Py.contains (generate_html_report (fun _ _ => "1.00") [result])
              (quote_text_div "<b>Great</b> & clear sessions all along") = true.
Proof.
  intros quote result.
  destruct (report_embeds_text_verbatim (fun _ _ => "1.00") [result] result) as [Hname Hquote];
    [left|].
  split; [exact Hname | apply (Hquote quote); left].
Defined.

(** ** The label of a source column *)

Lemma remove_char_free (c : ascii) (s : string) :
  Forall (fun d => d ≠ c) (list_ascii_of_string (Py.remove_char c s)).
Proof.
  induction s as [|d s IH]; simpl; [constructor|].
  destruct (Ascii.eqb_spec d c); simpl; [done|]. by constructor.
Qed.

Lemma lstrip_keeps (P : ascii → Prop) (s : string) :
  Forall P (list_ascii_of_string s) → Forall P (list_ascii_of_string (Py.lstrip s)).
Proof.
  induction s as [|c s IH]; simpl; [done|]. intros H.
  destruct (Py.isspace c); [|done]. apply IH. by apply Forall_cons in H as [_ ?].
Qed.

Lemma rstrip_keeps (P : ascii → Prop) (s : string) :
  Forall P (list_ascii_of_string s) → Forall P (list_ascii_of_string (Py.rstrip s)).
Proof.
  induction s as [|c s IH]; simpl; [done|]. intros [Hc Hs]%Forall_cons.
  specialize (IH Hs). destruct (Py.rstrip s) as [|d r].
  - destruct (Py.isspace c); simpl; [constructor|]. by constructor.
  - simpl. by constructor.
Qed.

Lemma rstrip_cons (c : ascii) (s : string) :
  Py.isspace c = false → Py.rstrip (String c s) = String c (Py.rstrip s).
Proof. intros Hc. simpl. rewrite Hc. by destruct (Py.rstrip s). Qed.

Lemma rstrip_idemp (s : string) : Py.rstrip (Py.rstrip s) = Py.rstrip s.
Proof.
  induction s as [|c s IH]; [done|]. simpl.
  destruct (Py.rstrip s) as [|d r] eqn:E.
  - destruct (Py.isspace c) eqn:Hc; [done|]. simpl. by rewrite Hc.
  - change (Py.rstrip (String c (String d r))) with
      (match Py.rstrip (String d r) with
       | EmptyString => if Py.isspace c then EmptyString else String c EmptyString
       | r' => String c r'
       end).
    by rewrite IH.
Qed.

Lemma strip_idemp (s : string) : Py.strip (Py.strip s) = Py.strip s.
Proof.
  unfold Py.strip.
  assert (Py.lstrip (Py.rstrip (Py.lstrip s)) = Py.rstrip (Py.lstrip s)) as ->;
    [|apply rstrip_idemp].
  assert (match Py.lstrip s with
          | EmptyString => True
          | String c _ => Py.isspace c = false
          end) as Hhead.
  { induction s as [|c s IH]; simpl; [done|].
    destruct (Py.isspace c) eqn:Hc; [exact IH | exact Hc]. }
  destruct (Py.lstrip s) as [|c t]; [done|].
  rewrite (rstrip_cons c t Hhead). simpl. by rewrite Hhead.
Qed.

(** X16. The label shown for the source of a quote holds no asterisk and
    neither begins nor ends with white space, whatever the name of the
    column is. *)
Theorem source_label_clean (source : string) :
  Forall (fun c => c ≠ "*"%char) (list_ascii_of_string (source_clean source)) ∧
  Py.strip (source_clean source) = source_clean source.
Proof.
  unfold source_clean. split; [|apply strip_idemp].
  unfold Py.strip. apply rstrip_keeps, lstrip_keeps, remove_char_free.
Qed.
